(** * OpsBot-AR: the Excel consolidator of [src/app.py], embedded in Rocq.

    The module [ExcelConsolidator] of the Python source works on pandas
    DataFrames.  We model a DataFrame as a list of column names and a list
    of rows (each row a list of cells, one per column).  Cells are the
    values a sheet can hold: integers, text, or an empty cell (pandas
    [NaN]).  Python exceptions are modelled by the result type [res];
    behaviour of pandas or [re] outside the fragment we model is reported
    as [Unmodelled], never guessed. *)

From Stdlib Require Import Strings.String Strings.Ascii Numbers.DecimalString.
From Stdlib Require Import Bool List ZArith QArith Lia.
Import ListNotations.

Open Scope nat_scope.
Open Scope bool_scope.

(* ------------------------------------------------------------------ *)
(** ** Results: Python exceptions *)

Inductive exn : Type :=
| TypeError
| ValueError
| NameError                      (* UnboundLocalError is a NameError *)
| IndexError
| KeyError
| ReError (msg : string)         (* re.error raised by re.compile *)
| ReadError (msg : string).      (* pd.ExcelFile / xls.parse failures *)

Inductive res (A : Type) : Type :=
| Ok (a : A)
| Raise (e : exn)
| Unmodelled.

Arguments Ok {A} a.
Arguments Raise {A} e.
Arguments Unmodelled {A}.

Definition bind {A B : Type} (m : res A) (k : A -> res B) : res B :=
  match m with
  | Ok a => k a
  | Raise e => Raise e
  | Unmodelled => Unmodelled
  end.

Notation "x <- m ;; k" := (bind m (fun x => k))
  (at level 61, m at next level, right associativity).

Definition map_res {A B : Type} (f : A -> B) (m : res A) : res B :=
  x <- m ;; Ok (f x).

Fixpoint mapM {A B : Type} (f : A -> res B) (l : list A) : res (list B) :=
  match l with
  | [] => Ok []
  | x :: l' => y <- f x ;; ys <- mapM f l' ;; Ok (y :: ys)
  end.

(* ------------------------------------------------------------------ *)
(** ** Python string methods on ASCII text *)

Definition is_upper (c : ascii) : bool :=
  let n := nat_of_ascii c in (65 <=? n) && (n <=? 90).

(** [str.lower] on ASCII. *)
Definition lower_ascii (c : ascii) : ascii :=
  if is_upper c then ascii_of_nat (nat_of_ascii c + 32) else c.

(** The ASCII characters [str.strip()] removes:
    \t \n \x0b \x0c \r \x1c \x1d \x1e \x1f and space. *)
Definition is_ws (c : ascii) : bool :=
  let n := nat_of_ascii c in
  ((9 <=? n) && (n <=? 13)) || ((28 <=? n) && (n <=? 32)).

Fixpoint drop_ws (l : list ascii) : list ascii :=
  match l with
  | [] => []
  | c :: l' => if is_ws c then drop_ws l' else l
  end.

Definition lower (s : string) : string :=
  string_of_list_ascii (map lower_ascii (list_ascii_of_string s)).

Definition strip (s : string) : string :=
  string_of_list_ascii
    (rev (drop_ws (rev (drop_ws (list_ascii_of_string s))))).

(** [s.replace(" ", "_")] *)
Definition replace_space (s : string) : string :=
  string_of_list_ascii
    (map (fun c => if Ascii.eqb c " "%char then "_"%char else c)
         (list_ascii_of_string s)).

(** Line 36 (and line 14 for the keywords):
    [c.lower().strip().replace(" ", "_")]. *)
Definition norm_search (c : string) : string :=
  replace_space (strip (lower c)).

(** Line 55: [col.strip().lower().replace(' ', '_')]. *)
Definition norm_clean (c : string) : string :=
  replace_space (lower (strip c)).

Fixpoint is_prefix (p s : list ascii) : bool :=
  match p, s with
  | [], _ => true
  | _ :: _, [] => false
  | a :: p', b :: s' => Ascii.eqb a b && is_prefix p' s'
  end.

Fixpoint contains_l (p s : list ascii) : bool :=
  is_prefix p s ||
  match s with
  | [] => false
  | _ :: s' => contains_l p s'
  end.

(** Python's [term in col]: substring test, case-sensitive. *)
Definition contains (p s : string) : bool :=
  contains_l (list_ascii_of_string p) (list_ascii_of_string s).

(** Case-insensitive substring test (compares lowercased texts). *)
Definition contains_ci (p s : string) : bool :=
  contains (lower p) (lower s).

(* ------------------------------------------------------------------ *)
(** ** Cells, rows and DataFrames *)

Inductive cell : Type :=
| VNum (z : Z)
| VStr (s : string)
| VNull.

Definition cell_eqb (a b : cell) : bool :=
  match a, b with
  | VNum x, VNum y => Z.eqb x y
  | VStr x, VStr y => String.eqb x y
  | VNull, VNull => true
  | _, _ => false
  end.

Definition cell_eq_dec (a b : cell) : {a = b} + {a <> b}.
Proof. decide equality; [apply Z.eq_dec | apply string_dec]. Defined.

Definition is_null (v : cell) : bool :=
  match v with VNull => true | _ => false end.

(** [str(v)] for one cell of [row.astype(str)] (pandas 2.x).  [as_float]
    tells whether the row holds the value as a float64: an integer [z]
    then prints as [repr(float(z))], which is "z.0" while |z| <= 2^53
    (beyond, float64 rounds the integer and may print an exponent: not
    modelled); otherwise it prints as a Python int.  An empty cell is NaN,
    whose text is "nan".  (Under pandas 3 an empty cell has no text and
    matches no keyword: a hypothesis that no keyword occurs in "nan" is
    then merely more than needed.) *)
Definition num_text (z : Z) : string := NilEmpty.string_of_int (Z.to_int z).

Definition cell_text (as_float : bool) (v : cell) : res string :=
  match v with
  | VNum z =>
      if as_float then
        if (Z.abs z <=? 2 ^ 53)%Z then Ok (num_text z ++ ".0")%string
        else Unmodelled
      else Ok (num_text z)
  | VStr s => Ok s
  | VNull => Ok "nan"%string
  end.

Definition row := list cell.

Record table : Type := mk_table { cols : list string; rows : list row }.

(** The dtype pandas gives a column read from a sheet: int64 when every
    cell is a number, float64 when the cells are numbers and NaN (or only
    NaN), object as soon as one cell is text.  Integer cells are taken to
    fit in int64. *)
Inductive dtype : Type := DInt | DFloat | DObject.

Definition col_dtype (col : list cell) : dtype :=
  if existsb (fun v => match v with VStr _ => true | _ => false end) col then DObject
  else if existsb is_null col then DFloat
  else DInt.

(** [df.iloc[:, j]] *)
Definition column_at (t : table) (j : nat) : list cell :=
  map (fun r => nth j r VNull) (rows t).

(** Which cells of a row [df.apply(..., axis=1)] hands over as floats.
    The rows are taken from [df.values], of the common dtype of the
    columns: object as soon as one column is object (each value keeps the
    type of its column), else float64 as soon as one column is float64
    (the integers are converted), else int64. *)
Definition float_cols (t : table) : list bool :=
  let dts := map (fun j => col_dtype (column_at t j)) (seq 0 (List.length (cols t))) in
  let any_obj := existsb (fun d => match d with DObject => true | _ => false end) dts in
  let any_float := existsb (fun d => match d with DFloat => true | _ => false end) dts in
  map (fun d => match d with
                | DFloat => true
                | DInt => negb any_obj && any_float
                | DObject => false
                end) dts.

(** [row.astype(str)]: the texts of the cells of a row. *)
Definition row_text (fl : list bool) (r : row) : res (list string) :=
  mapM (fun bv => cell_text (fst bv) (snd bv)) (combine fl r).

(** [pd.DataFrame()] *)
Definition empty_table : table := mk_table [] [].

(** [df.empty]: true when either axis has length 0. *)
Definition is_empty (t : table) : bool :=
  match rows t, cols t with
  | [], _ | _, [] => true
  | _, _ => false
  end.

Definition in_cols (name : string) (cs : list string) : bool :=
  existsb (String.eqb name) cs.

Fixpoint index (name : string) (cs : list string) : option nat :=
  match cs with
  | [] => None
  | c :: cs' =>
      if String.eqb name c then Some 0
      else option_map S (index name cs')
  end.

Definition occurrences (name : string) (cs : list string) : nat :=
  length (filter (String.eqb name) cs).

(** [df[name]] for a name that names exactly one column; a missing name
    is a KeyError; a duplicated name yields a DataFrame in pandas, which
    we do not model. *)
Definition get_column (t : table) (name : string) : res (list cell) :=
  match occurrences name (cols t), index name (cols t) with
  | 1, Some i => Ok (map (fun r => nth i r VNull) (rows t))
  | 0, _ => Raise KeyError
  | _, _ => Unmodelled
  end.

(** [df[name] = v] for a scalar [v]: overwrite the column, or append it. *)
Definition set_column (name : string) (v : cell) (t : table) : res table :=
  match occurrences name (cols t), index name (cols t) with
  | 0, _ => Ok (mk_table (cols t ++ [name]) (map (fun r => r ++ [v]) (rows t)))
  | 1, Some i =>
      Ok (mk_table (cols t)
                   (map (fun r => firstn i r ++ v :: skipn (S i) r) (rows t)))
  | _, _ => Unmodelled
  end.

(** [df[names]] for a list of names, each naming one column of [df]. *)
Definition project (t : table) (names : list string) : res table :=
  if forallb (fun n => Nat.eqb (occurrences n (cols t)) 1) names then
    Ok (mk_table names
          (map (fun r =>
                  map (fun n => match index n (cols t) with
                                | Some i => nth i r VNull
                                | None => VNull
                                end) names)
               (rows t)))
  else Unmodelled.

(** [df[mask]] *)
Definition filter_rows (t : table) (mask : list bool) : table :=
  mk_table (cols t)
           (map fst (filter snd (combine (rows t) mask))).

(** Reindex a row, stored under the columns [old], to the columns [cs];
    missing columns are filled with NaN. *)
Definition reindex (old cs : list string) (r : row) : row :=
  map (fun c => match index c old with
                | Some i => nth i r VNull
                | None => VNull
                end) cs.

(** [pd.concat([t1, t2], ignore_index=True)]: the columns are the union
    of the columns (those of [t1], then the new ones of [t2]), the rows of
    [t1] followed by those of [t2], missing cells NaN.  Differing column
    sets with duplicated names make pandas raise; not modelled. *)
Definition concat (t1 t2 : table) : res table :=
  if list_eq_dec string_dec (cols t1) (cols t2) then
    Ok (mk_table (cols t1) (rows t1 ++ rows t2))
  else if forallb (fun c => Nat.eqb (occurrences c (cols t1)) 1) (cols t1)
          && forallb (fun c => Nat.eqb (occurrences c (cols t2)) 1) (cols t2)
  then
    let cs := cols t1 ++ filter (fun c => negb (in_cols c (cols t1))) (cols t2) in
    Ok (mk_table cs (map (reindex (cols t1) cs) (rows t1)
                     ++ map (reindex (cols t2) cs) (rows t2)))
  else Unmodelled.

(* ------------------------------------------------------------------ *)
(** ** The [re] fragment used by [str.contains(pattern, case=False)]

    Line 39 joins the keywords with ['|'] and hands the result to
    [str.contains], which compiles it with [re.compile(pat, re.IGNORECASE)].
    We model Python's [sre_parse] on the fragment made of literal
    characters, ['.'], alternation ['|'] and groups ['(' ... ')'], with its
    two parse errors on parentheses.  The other metacharacters
    ([^ $ * + ? { } [ ] \]) are outside the fragment: [Unmodelled]. *)

Inductive regex : Type :=
| RChar (c : ascii)
| RAny
| REps
| RSeq (r1 r2 : regex)
| RAlt (r1 r2 : regex)
| RGroup (r : regex).

Definition is_unmodelled_meta (c : ascii) : bool :=
  existsb (Ascii.eqb c) (list_ascii_of_string "^$*+?{}[]\").

(** Every character with a meaning in a Python regular expression. *)
Definition is_meta (c : ascii) : bool :=
  is_unmodelled_meta c || existsb (Ascii.eqb c) (list_ascii_of_string ".|()").

Inductive parsed : Type :=
| POk (r : regex) (rest : list ascii)
| PErr (msg : string)
| PUnknown.

(** [_parse_sub] (alternatives) and [_parse] (a sequence of items, stopped
    by ['|'], [')'] or the end).  The fuel bounds the recursion depth; its
    exhaustion is reported as [PUnknown]. *)
Fixpoint parse_sub (fuel : nat) (s : list ascii) : parsed :=
  match fuel with
  | O => PUnknown
  | S f =>
      match parse_seq f s with
      | POk r1 rest =>
          match rest with
          | c :: rest' =>
              if Ascii.eqb c "|"%char then
                match parse_sub f rest' with
                | POk r2 rest'' => POk (RAlt r1 r2) rest''
                | e => e
                end
              else POk r1 rest
          | [] => POk r1 rest
          end
      | e => e
      end
  end
with parse_seq (fuel : nat) (s : list ascii) : parsed :=
  match fuel with
  | O => PUnknown
  | S f =>
      match s with
      | [] => POk REps []
      | c :: s' =>
          if Ascii.eqb c "|"%char || Ascii.eqb c ")"%char then POk REps s
          else if Ascii.eqb c "("%char then
            match parse_sub f s' with
            | POk r (c' :: rest) =>
                if Ascii.eqb c' ")"%char then
                  match parse_seq f rest with
                  | POk r2 rest2 => POk (RSeq (RGroup r) r2) rest2
                  | e => e
                  end
                else PErr "missing ), unterminated subpattern"
            | POk _ [] => PErr "missing ), unterminated subpattern"
            | e => e
            end
          else if is_unmodelled_meta c then PUnknown
          else
            let atom := if Ascii.eqb c "."%char then RAny else RChar c in
            match parse_seq f s' with
            | POk r2 rest2 => POk (RSeq atom r2) rest2
            | e => e
            end
      end
  end.

(** [re.compile(pattern)]: a [')'] left over at top level is
    "unbalanced parenthesis". *)
Definition re_compile (pat : string) : res regex :=
  let s := list_ascii_of_string pat in
  match parse_sub (2 * List.length s + 2) s with
  | POk r [] => Ok r
  | POk _ _ => Raise (ReError "unbalanced parenthesis")
  | PErr m => Raise (ReError m)
  | PUnknown => Unmodelled
  end.

(** Backtracking matcher, with [re.IGNORECASE] (both sides lowercased);
    ['.'] matches anything but a newline. *)
Fixpoint rmatch (r : regex) (s : list ascii) (k : list ascii -> bool) : bool :=
  match r with
  | RChar c =>
      match s with
      | x :: s' => Ascii.eqb (lower_ascii c) (lower_ascii x) && k s'
      | [] => false
      end
  | RAny =>
      match s with
      | x :: s' => negb (Ascii.eqb x "010"%char) && k s'
      | [] => false
      end
  | REps => k s
  | RSeq r1 r2 => rmatch r1 s (fun s' => rmatch r2 s' k)
  | RAlt r1 r2 => rmatch r1 s k || rmatch r2 s k
  | RGroup r1 => rmatch r1 s k
  end.

(** [pattern.search(s) is not None] *)
Fixpoint re_search (r : regex) (s : list ascii) : bool :=
  rmatch r s (fun _ => true) ||
  match s with
  | [] => false
  | _ :: s' => re_search r s'
  end.

(* ------------------------------------------------------------------ *)
(** ** [ExcelConsolidator.__init__] and [smart_search] *)

(** Line 14: [[k.lower().strip().replace(" ", "_") for k in keywords]
    if keywords else []]. *)
Definition init_keywords (keywords : option (list string)) : list string :=
  match keywords with
  | Some ks => map norm_search ks
  | None => []
  end.

(** Line 39, the lambda applied to one row:
    [row.astype(str).str.contains('|'.join(keywords), case=False).any()].
    [astype(str)] never raises, so compiling the pattern first gives the
    same outcome. *)
Definition row_matches (keywords : list string) (fl : list bool) (r : row) : res bool :=
  pat <- re_compile (String.concat "|" keywords) ;;
  texts <- row_text fl r ;;
  Ok (existsb (fun s => re_search pat (list_ascii_of_string s)) texts).

(** Line 39, [df.apply(lambda row: ..., axis=1)].  With no column, pandas
    takes its empty-axis path: it calls the lambda once on an empty Series
    and swallows any exception; no row is kept either way. *)
Definition apply_row_matches (keywords : list string) (df : table) : res (list bool) :=
  match cols df with
  | [] => Ok (map (fun _ => false) (rows df))
  | _ :: _ => mapM (row_matches keywords (float_cols df)) (rows df)
  end.

(** [smart_search(df)].  Line 36 renames the columns of the caller's [df]
    in place, so the function returns the DataFrame [df] after that
    mutation together with its result. *)
Definition smart_search (keywords : list string) (df : table) : res (table * table) :=
  match keywords with
  | [] => Ok (df, df)
  | _ :: _ =>
      let df := mk_table (map norm_search (cols df)) (rows df) in
      let matched_cols :=
        filter (fun col => existsb (fun term => contains term col) keywords)
               (cols df) in
      text_match <- apply_row_matches keywords df ;;
      let matched_rows := filter_rows df text_match in
      match matched_cols with
      | _ :: _ =>
          let cols_to_return :=
            filter (fun col => in_cols col (cols df)) matched_cols
            ++ (if in_cols "source_file" (cols df) then ["source_file"%string] else [])
            ++ (if in_cols "sheet_name" (cols df) then ["sheet_name"%string] else []) in
          if is_empty matched_rows then
            match cols_to_return with
            | [] => Ok (df, df)
            | _ => p <- project df cols_to_return ;; Ok (df, p)
            end
          else
            match cols_to_return with
            | [] => Ok (df, matched_rows)
            | _ => p <- project matched_rows cols_to_return ;; Ok (df, p)
            end
      | [] =>
          if negb (is_empty matched_rows) then Ok (df, matched_rows)
          else Ok (df, df)
      end
  end.

(* ------------------------------------------------------------------ *)
(** ** [read_excel_files], [clean_and_standardize], [deduplicate],
       [consolidate] *)

(** What [xls.parse(sheet)] gives for one sheet. *)
Inductive sheet_parse : Type :=
| Parsed (df : table)
| ParseFails (err : string).

(** What [pd.ExcelFile(uploaded_file)] gives: a workbook with its sheets
    in [xls.sheet_names] order, or a failure to open. *)
Inductive workbook : Type :=
| Workbook (sheets : list (string * sheet_parse))
| Corrupt (err : string).

Record upload : Type := mk_upload { name : string; data : workbook }.

(** [st.warning(f"Error reading {uploaded_file.name}: {e}")] *)
Record warning : Type := mk_warning { wfile : string; werr : exn }.

(** The sheet loop of one file.  [self.combined_df] is mutated sheet by
    sheet, so an exception keeps the rows appended before it. *)
Inductive sheets_out : Type :=
| SDone (combined : table)
| SFail (combined : table) (e : exn)
| SUnknown.

Fixpoint read_sheets (keywords : list string) (fname : string)
         (combined : table) (sheets : list (string * sheet_parse)) : sheets_out :=
  match sheets with
  | [] => SDone combined
  | (sheet, p) :: rest =>
      match p with
      | ParseFails m => SFail combined (ReadError m)
      | Parsed df =>
          let step :=
            df <- set_column "source_file" (VStr fname) df ;;
            df <- set_column "sheet_name" (VStr sheet) df ;;
            out <- smart_search keywords df ;;
            let '(df, filtered_df) := out in
            if negb (is_empty filtered_df) then concat combined filtered_df
            else concat combined df in
          match step with
          | Ok combined' => read_sheets keywords fname combined' rest
          | Raise e => SFail combined e
          | Unmodelled => SUnknown
          end
      end
  end.

(** One iteration of the file loop, with its [try]/[except Exception]:
    the new [combined_df] and the warnings it shows. *)
Definition read_file (keywords : list string) (combined : table) (f : upload)
  : res (table * list warning) :=
  match data f with
  | Corrupt m => Ok (combined, [mk_warning (name f) (ReadError m)])
  | Workbook sheets =>
      match read_sheets keywords (name f) combined sheets with
      | SDone c => Ok (c, [])
      | SFail c e => Ok (c, [mk_warning (name f) e])
      | SUnknown => Unmodelled
      end
  end.

(** [read_excel_files]: the loop over [self.files]. *)
Fixpoint read_excel_files (keywords : list string) (combined : table)
         (files : list upload) : res (table * list warning) :=
  match files with
  | [] => Ok (combined, [])
  | f :: files' =>
      r1 <- read_file keywords combined f ;;
      r2 <- read_excel_files keywords (fst r1) files' ;;
      Ok (fst r2, snd r1 ++ snd r2)
  end.

(** [clean_and_standardize]: [dropna(how='all')], then the renaming. *)
Definition clean_and_standardize (t : table) : table :=
  mk_table (map norm_clean (cols t))
           (filter (fun r => negb (forallb is_null r)) (rows t)).

Definition row_eqb (r1 r2 : row) : bool :=
  if list_eq_dec cell_eq_dec r1 r2 then true else false.

Fixpoint drop_duplicates_from (seen : list row) (rs : list row) : list row :=
  match rs with
  | [] => []
  | r :: rs' =>
      if existsb (row_eqb r) seen then drop_duplicates_from seen rs'
      else r :: drop_duplicates_from (r :: seen) rs'
  end.

(** [deduplicate]: [drop_duplicates()], keeping first occurrences. *)
Definition deduplicate (t : table) : table :=
  mk_table (cols t) (drop_duplicates_from [] (rows t)).

(** [consolidate()] on a fresh [ExcelConsolidator(files, keywords)]:
    the returned DataFrame and the warnings shown on the way. *)
Definition consolidate (keywords : list string) (files : list upload)
  : res (table * list warning) :=
  r <- read_excel_files keywords empty_table files ;;
  Ok (deduplicate (clean_and_standardize (fst r)), snd r).

(* ------------------------------------------------------------------ *)
(** ** [generate_insights] *)

(** The sum of the numbers of a column, and their mean over the non-empty
    cells ([None] for NaN). *)
Definition num_sum (col : list cell) : Z :=
  fold_right (fun v acc => match v with VNum z => (z + acc)%Z | _ => acc end) 0%Z col.

Definition num_mean (col : list cell) : option Q :=
  match List.length (filter (fun v => negb (is_null v)) col) with
  | O => None
  | S n => Some (num_sum col # Pos.of_succ_nat n)
  end.

(** The sum of the absolute values of the numbers of a column. *)
Definition abs_sum (col : list cell) : Z :=
  fold_right (fun v acc => match v with VNum z => (Z.abs z + acc)%Z | _ => acc end) 0%Z col.

(** int64 arithmetic wraps around modulo 2^64. *)
Definition wrap64 (z : Z) : Z := ((z + 2 ^ 63) mod 2 ^ 64 - 2 ^ 63)%Z.

(** [Series.sum()] on an object column: NaN cells are filled with 0
    ([nanops.nansum]), then the cells are added with Python's [+] from the
    first one on; [int + str] raises TypeError, [str + str] concatenates. *)
Definition py_add (a b : cell) : res cell :=
  match a, b with
  | VNum x, VNum y => Ok (VNum (x + y)%Z)
  | VStr x, VStr y => Ok (VStr (x ++ y)%string)
  | _, _ => Raise TypeError
  end.

Definition fill_null (v : cell) : cell :=
  match v with VNull => VNum 0%Z | _ => v end.

Definition sum_step (acc : res cell) (x : cell) : res cell :=
  a <- acc ;; py_add a x.

(** [Series.sum()] by the dtype of the column: an int64 column is summed
    in int64, wrapping around; a float64 column with NaN skipped (0 for
    none).  The float64 sum is the exact sum of the numbers as long as
    their absolute values add up to at most 2^53 ([abs_sum]): every partial
    sum is then an integer float64 holds exactly; beyond that bound its
    rounding is not modelled, and the statements about the value of a sum
    assume the bound.  An object column is folded with Python's [+]. *)
Definition series_sum (col : list cell) : res cell :=
  match col_dtype col with
  | DInt => Ok (VNum (wrap64 (num_sum col)))
  | DFloat => Ok (VNum (num_sum col))
  | DObject =>
      match map fill_null col with
      | [] => Ok (VNum 0%Z)
      | v :: vs => fold_left sum_step vs (Ok v)
      end
  end.

(** [Series.mean()]: a column whose sum is text cannot be averaged
    (TypeError); otherwise the numbers are summed in float64 (an int64
    column too, so without wrap-around) and divided by the non-NaN count,
    NaN ([None]) when there is none.  The mean is kept as the exact
    quotient: the rounding of the float64 division is not modelled. *)
Definition series_mean (col : list cell) : res (option Q) :=
  s <- series_sum col ;;
  match s with
  | VNum _ => Ok (num_mean col)
  | _ => Raise TypeError
  end.

Definition has_num (col : list cell) : bool :=
  existsb (fun v => match v with VNum _ => true | _ => false end) col.

Definition has_str (col : list cell) : bool :=
  existsb (fun v => match v with VStr _ => true | _ => false end) col.

(** [f"{v:,.2f}"]: fine on a number, ValueError on a [str]. *)
Definition format_money (v : cell) : res unit :=
  match v with VStr _ => Raise ValueError | _ => Ok tt end.

(** The items [generate_insights] shows, before their text formatting. *)
Inductive insight : Type :=
| TotalRevenue (total : cell)
| AvgRevenue (avg : option Q)
| TopClientByRevenue (client : cell)
| TotalAum (total : cell)
| TopAumHolder (holder : cell)
| PerformanceBreakdown (counts : list (cell * nat))
| MostCommonJurisdiction (j : cell) (n : nat)
| TotalCalls (total : cell).

Inductive summary : Type :=
| RevenueSummary (total : cell) (avg : option Q) (top : cell)
| AumSummary (total : cell) (top : cell)
| PerformanceSummary (top : cell)
| JurisdictionSummary (j : cell) (n : nat)
| CallsSummary (total : cell).

(** First key of maximal count, in the order of the list: Python's
    [max(d, key=d.get)] and pandas' [idxmax]. *)
Fixpoint first_max (l : list (cell * nat)) : option (cell * nat) :=
  match l with
  | [] => None
  | (k, n) :: l' =>
      match first_max l' with
      | Some (k', n') => if n <? n' then Some (k', n') else Some (k, n)
      | None => Some (k, n)
      end
  end.

Section Insights.

(** Two pandas operations are taken as they come from the library:
    - [order_desc col]: the row order produced by
      [sort_values(by=..., ascending=False)] on a column whose values are
      comparable (pandas' default [kind='quicksort'] is not a stable sort,
      so the order among equal values is the library's);
    - [value_counts col]: [Series.value_counts()], distinct non-NaN values
      with their counts, in the library's order. *)
Variable order_desc : list cell -> list nat.
Variable value_counts : list cell -> list (cell * nat).

(** [sort_values(by=name, ascending=False).head(1)]: [int] and [str] are
    not comparable (TypeError). *)
Definition top_row (t : table) (col : list cell) : res table :=
  if has_num col && has_str col then Raise TypeError
  else
    Ok (mk_table (cols t)
          (match order_desc col with
           | i :: _ => [nth i (rows t) []]
           | [] => []
           end)).

(** [top.iloc[0][name]] *)
Definition iloc0 (top : table) (name : string) : res cell :=
  match rows top with
  | [] => Raise IndexError
  | r :: _ =>
      c <- get_column (mk_table (cols top) [r]) name ;;
      match c with v :: _ => Ok v | [] => Raise IndexError end
  end.

(** The Python local [top_client] (or [top_holder]): assigned only inside
    the [if 'client_name' in top.columns] branch. *)
Definition top_name (top : table) : res (option cell) :=
  if in_cols "client_name" (cols top) then
    v <- iloc0 top "client_name" ;; Ok (Some v)
  else Ok None.

(** Reading a possibly unassigned local: UnboundLocalError. *)
Definition read_local (v : option cell) : res cell :=
  match v with Some c => Ok c | None => Raise NameError end.

(** Lines 70-79. *)
Definition revenue_block (t : table) (acc : list insight * list summary)
  : res (list insight * list summary) :=
  if in_cols "revenue" (cols t) then
    col <- get_column t "revenue" ;;
    total_revenue <- series_sum col ;;
    avg_revenue <- series_mean col ;;
    top_revenue <- top_row t col ;;
    _ <- format_money total_revenue ;;
    let ins := fst acc ++ [TotalRevenue total_revenue; AvgRevenue avg_revenue] in
    top_client <- top_name top_revenue ;;
    let ins := ins ++ match top_client with
                      | Some c => [TopClientByRevenue c]
                      | None => []
                      end in
    _ <- format_money total_revenue ;;
    c <- read_local top_client ;;
    Ok (ins, snd acc ++ [RevenueSummary total_revenue avg_revenue c])
  else Ok acc.

(** Lines 81-88. *)
Definition aum_block (t : table) (acc : list insight * list summary)
  : res (list insight * list summary) :=
  if in_cols "aum" (cols t) then
    col <- get_column t "aum" ;;
    total_aum <- series_sum col ;;
    top_aum <- top_row t col ;;
    _ <- format_money total_aum ;;
    let ins := fst acc ++ [TotalAum total_aum] in
    top_holder <- top_name top_aum ;;
    let ins := ins ++ match top_holder with
                      | Some c => [TopAumHolder c]
                      | None => []
                      end in
    _ <- format_money total_aum ;;
    h <- read_local top_holder ;;
    Ok (ins, snd acc ++ [AumSummary total_aum h])
  else Ok acc.

(** Lines 90-94: [max] of an empty dict is a ValueError. *)
Definition performance_block (t : table) (acc : list insight * list summary)
  : res (list insight * list summary) :=
  if in_cols "performance" (cols t) then
    col <- get_column t "performance" ;;
    let perf_summary := value_counts col in
    let ins := fst acc ++ [PerformanceBreakdown perf_summary] in
    match first_max perf_summary with
    | Some (top_perf, _) => Ok (ins, snd acc ++ [PerformanceSummary top_perf])
    | None => Raise ValueError
    end
  else Ok acc.

(** Lines 96-100: [idxmax] of an empty Series is a ValueError. *)
Definition jurisdiction_block (t : table) (acc : list insight * list summary)
  : res (list insight * list summary) :=
  if in_cols "jurisdiction" (cols t) then
    col <- get_column t "jurisdiction" ;;
    match first_max (value_counts col) with
    | Some (j, n) =>
        Ok (fst acc ++ [MostCommonJurisdiction j n],
            snd acc ++ [JurisdictionSummary j n])
    | None => Raise ValueError
    end
  else Ok acc.

(** Lines 102-105. *)
Definition calls_block (t : table) (acc : list insight * list summary)
  : res (list insight * list summary) :=
  if in_cols "call_(x)" (cols t) then
    col <- get_column t "call_(x)" ;;
    total_calls <- series_sum col ;;
    Ok (fst acc ++ [TotalCalls total_calls], snd acc ++ [CallsSummary total_calls])
  else Ok acc.

(** [generate_insights()] on [self.combined_df = t]. *)
Definition generate_insights (t : table) : res (list insight * list summary) :=
  a <- revenue_block t ([], []) ;;
  a <- aum_block t a ;;
  a <- performance_block t a ;;
  a <- jurisdiction_block t a ;;
  calls_block t a.

End Insights.

(** One admissible instance of the library orders, used for concrete
    runs: descending numeric order, stable, other cells last; and value
    counts in first-seen order. *)
Fixpoint insert_desc (col : list cell) (i : nat) (l : list nat) : list nat :=
  let key j := match nth j col VNull with VNum z => Some z | _ => None end in
  match l with
  | [] => [i]
  | j :: l' =>
      match key i, key j with
      | Some zi, Some zj => if (zj <? zi)%Z then i :: l else j :: insert_desc col i l'
      | Some _, None => i :: l
      | None, _ => j :: insert_desc col i l'
      end
  end.

Definition stable_order_desc (col : list cell) : list nat :=
  fold_left (fun acc i => insert_desc col i acc) (seq 0 (List.length col)) [].

Fixpoint bump (v : cell) (l : list (cell * nat)) : list (cell * nat) :=
  match l with
  | [] => [(v, 1)]
  | (k, n) :: l' => if cell_eqb k v then (k, S n) :: l' else (k, n) :: bump v l'
  end.

Definition counts_first_seen (col : list cell) : list (cell * nat) :=
  fold_left (fun acc v => if is_null v then acc else bump v acc) col [].

(* ------------------------------------------------------------------ *)
(** ** Auxiliary definitions for the statements *)

(** The regex a metacharacter-free keyword compiles to. *)
Definition lit (k : list ascii) : regex :=
  fold_right (fun c r => RSeq (RChar c) r) REps k.

Fixpoint alts (ks : list (list ascii)) : regex :=
  match ks with
  | [] => REps
  | [k] => lit k
  | k :: ks' => RAlt (lit k) (alts ks')
  end.

(** ['|'.join(...)] on character lists. *)
Fixpoint join_bar (ks : list (list ascii)) : list ascii :=
  match ks with
  | [] => []
  | [k] => k
  | k :: ks' => k ++ "|"%char :: join_bar ks'
  end.

Definition no_meta (k : string) : bool :=
  forallb (fun c => negb (is_meta c)) (list_ascii_of_string k).

(** A column name that is lowercase, has no space and no surrounding
    whitespace. *)
Definition col_normalized (c : string) : bool :=
  let l := list_ascii_of_string c in
  forallb (fun a => negb (is_upper a) && negb (Ascii.eqb a " "%char)) l &&
  match l with
  | [] => true
  | a :: _ => negb (is_ws a) && negb (is_ws (last l a))
  end.

(** The kind of a cell: number, text or empty. *)
Definition kind (v : cell) : nat :=
  match v with VNum _ => 0 | VStr _ => 1 | VNull => 2 end.

(** The character map of [lower().replace(' ', '_')]. *)
Definition space_to_underscore (c : ascii) : ascii :=
  if Ascii.eqb c " "%char then "_"%char else c.

(** [str.split(sep)] on character lists. *)
Fixpoint split_on (sep : ascii) (l : list ascii) : list (list ascii) :=
  match l with
  | [] => [[]]
  | c :: l' =>
      let rest := split_on sep l' in
      if Ascii.eqb c sep then [] :: rest
      else match rest with
           | x :: xs => (c :: x) :: xs
           | [] => [[c]]
           end
  end.

(** [main], line 125:
    [[k.strip() for k in keywords_input.split(",") if k.strip()]]. *)
Definition main_keywords (keywords_input : string) : list string :=
  map strip
      (filter (fun k => negb (String.eqb (strip k) ""))
              (map string_of_list_ascii
                   (split_on ","%char (list_ascii_of_string keywords_input)))).

(** The rows a parsed sheet holds, and those of all the parsed sheets of
    an upload. *)
Definition sheet_rows (sp : string * sheet_parse) : nat :=
  match snd sp with
  | Parsed df => List.length (rows df)
  | ParseFails _ => 0
  end.

Definition parsed_rows (f : upload) : nat :=
  match data f with
  | Workbook sheets => list_sum (map sheet_rows sheets)
  | Corrupt _ => 0
  end.

(** Every row has one cell per column. *)
Definition rows_fit (t : table) : bool :=
  forallb (fun r => Nat.eqb (List.length r) (List.length (cols t))) (rows t).

(** Concrete inputs. *)
Definition sheet_one_row : table :=
  mk_table ["revenue"%string] [[VNum 100%Z]].

Definition book_one_sheet : upload :=
  mk_upload "book.xlsx" (Workbook [("Sheet1"%string, Parsed sheet_one_row)]).

(** A sheet with untrimmed, capitalised column names, a repeated row and
    a row of empty cells. *)
Definition messy_book : upload :=
  mk_upload "book.xlsx"
    (Workbook [("Sheet1"%string,
                Parsed (mk_table [" Revenue"%string; "Client Name"%string]
                                 [[VNum 100%Z; VStr "A"]; [VNum 100%Z; VStr "A"];
                                  [VNull; VNull]]))]).

Definition revenue_with_text : table :=
  mk_table ["revenue"%string; "client_name"%string]
           [[VNum 100%Z; VStr "X"]; [VStr "n/a"; VStr "Y"]].

Definition client_name_sheet : table :=
  mk_table ["Client Name"%string; "x"%string] [[VStr "Bob"; VNum 1%Z]].

(* ================================================================== *)
(** * Properties *)

(* ------------------------------------------------------------------ *)
(** ** [smart_search] with no keywords, and with a '(' keyword *)

(** C6: with an empty keyword list, [smart_search] returns the DataFrame
    unchanged (and does not rename the caller's columns). *)
Theorem smart_search_no_keywords (df : table) :
  smart_search [] df = Ok (df, df).
Proof. reflexivity. Qed.

(** C9: the keywords are joined into a regular expression; the keyword
    "(" makes [re.compile] raise on every non-empty DataFrame (one with
    a row and a column). *)
Theorem smart_search_paren_keyword_raises (df : table) :
  rows df <> [] ->
  cols df <> [] ->
  smart_search ["("%string] df
  = Raise (ReError "missing ), unterminated subpattern").
Proof.
  destruct df as [[|c cs] [|r rs]]; simpl; intros H1 H2;
    [congruence | congruence | congruence | reflexivity].
Qed.

Lemma smart_search_paren_keyword_raises_witness :
  rows sheet_one_row <> [] /\ cols sheet_one_row <> [] /\
  smart_search ["("%string] sheet_one_row
  = Raise (ReError "missing ), unterminated subpattern").
Proof.
  split; [discriminate | split; [discriminate |]].
  apply smart_search_paren_keyword_raises; discriminate.
Defined.

(** C10 (failing input): with the keyword "(", a workbook whose one sheet
    has a row contributes no row: [smart_search] raises, the [except]
    turns it into a warning and the DataFrame stays empty. *)
Theorem read_excel_files_paren_keyword_drops_sheet :
  read_excel_files ["("%string] empty_table [book_one_sheet]
  = Ok (empty_table,
        [mk_warning "book.xlsx" (ReError "missing ), unterminated subpattern")]).
Proof. vm_compute. reflexivity. Qed.

(* ------------------------------------------------------------------ *)
(** ** Sums of a column *)

Lemma fold_sum_step_raise (l : list cell) (e : exn) :
  fold_left sum_step l (Raise e) = Raise e.
Proof. induction l; simpl; auto. Qed.

Lemma fold_sum_step_nums (l : list cell) (z : Z) :
  Forall (fun v => exists n, v = VNum n) l ->
  exists z', fold_left sum_step l (Ok (VNum z)) = Ok (VNum z').
Proof.
  revert z; induction l as [|v l IH]; intros z Hl; simpl.
  - eauto.
  - inversion Hl as [|? ? [n ->] Hl']; subst. simpl. apply IH; exact Hl'.
Qed.

Lemma col_dtype_str (col : list cell) (s : string) :
  In (VStr s) col -> col_dtype col = DObject.
Proof.
  intro Hs. unfold col_dtype.
  replace (existsb _ col) with true; [reflexivity|].
  symmetry. apply existsb_exists. exists (VStr s). auto.
Qed.

Lemma col_dtype_nums (col : list cell) :
  Forall (fun v => is_null v = true \/ exists z, v = VNum z) col ->
  col_dtype col <> DObject.
Proof.
  intro H. unfold col_dtype.
  replace (existsb (fun v => match v with VStr _ => true | _ => false end) col)
    with false.
  - destruct (existsb is_null col); discriminate.
  - symmetry. apply Bool.not_true_iff_false. intro He.
    apply existsb_exists in He as [[z|s|] [Hin Hv]]; try discriminate.
    rewrite Forall_forall in H. destruct (H _ Hin) as [Hn|[z Hz]]; discriminate.
Qed.

Lemma series_sum_nums (col : list cell) :
  Forall (fun v => is_null v = true \/ exists z, v = VNum z) col ->
  exists z, series_sum col = Ok (VNum z).
Proof.
  intro H. unfold series_sum.
  pose proof (col_dtype_nums col H) as Hd.
  destruct (col_dtype col); [eauto | eauto | congruence].
Qed.

Lemma fold_sum_step_kinds (l : list cell) (a b : cell) :
  fold_left sum_step l (Ok a) = Ok b ->
  forall x, In x l -> kind x = kind a.
Proof.
  revert a; induction l as [|v l IH]; intros a H x Hx; [destruct Hx|].
  simpl in H.
  destruct a as [za|sa|], v as [zv|sv|]; simpl in H;
    try (rewrite fold_sum_step_raise in H; discriminate);
    (destruct Hx as [<-|Hx]; [reflexivity|]);
    specialize (IH _ H x Hx); exact IH.
Qed.

Lemma fold_sum_step_ok_or_type_error (l : list cell) (a : cell) :
  (exists b, fold_left sum_step l (Ok a) = Ok b) \/
  fold_left sum_step l (Ok a) = Raise TypeError.
Proof.
  revert a; induction l as [|v l IH]; intros a; simpl; [eauto|].
  destruct a, v; simpl; try (right; apply fold_sum_step_raise); apply IH.
Qed.

(** A column holding a number and a text cannot be summed. *)
Lemma series_sum_mixed (col : list cell) (n : Z) (s : string) :
  In (VNum n) col -> In (VStr s) col -> series_sum col = Raise TypeError.
Proof.
  intros Hn Hs. unfold series_sum. rewrite (col_dtype_str col s Hs).
  assert (Hn' : In (VNum n) (map fill_null col))
    by (change (VNum n) with (fill_null (VNum n)); apply in_map; exact Hn).
  assert (Hs' : In (VStr s) (map fill_null col))
    by (change (VStr s) with (fill_null (VStr s)); apply in_map; exact Hs).
  destruct (map fill_null col) as [|v vs]; [destruct Hn'|].
  destruct (fold_sum_step_ok_or_type_error vs v) as [[b Hb]|Hr]; [|exact Hr].
  exfalso.
  pose proof (fold_sum_step_kinds vs v b Hb) as Hk.
  assert (kind (VNum n) = kind v)
    by (destruct Hn' as [<-|Hn']; [reflexivity | apply Hk; exact Hn']).
  assert (kind (VStr s) = kind v)
    by (destruct Hs' as [<-|Hs']; [reflexivity | apply Hk; exact Hs']).
  simpl in *; congruence.
Qed.

Lemma get_column_in (t : table) (nm : string) (col : list cell) :
  get_column t nm = Ok col -> in_cols nm (cols t) = true.
Proof.
  unfold get_column, occurrences, in_cols. intro H.
  destruct (filter (String.eqb nm) (cols t)) as [|c l] eqn:E; [discriminate|].
  assert (Hc : In c (filter (String.eqb nm) (cols t))) by (rewrite E; left; auto).
  apply filter_In in Hc. apply existsb_exists. eauto.
Qed.

(* ------------------------------------------------------------------ *)
(** ** [generate_insights] *)

(** C1 (failing input): with a numeric [revenue] column and no
    [client_name] column, line 79 reads the unassigned local
    [top_client], and [generate_insights] raises instead of skipping the
    top-client clause. *)
Theorem generate_insights_revenue_without_client_name
  (order_desc : list cell -> list nat)
  (value_counts : list cell -> list (cell * nat))
  (t : table) (col : list cell) :
  get_column t "revenue" = Ok col ->
  Forall (fun v => is_null v = true \/ exists z, v = VNum z) col ->
  in_cols "client_name" (cols t) = false ->
  generate_insights order_desc value_counts t = Raise NameError.
Proof.
  intros Hcol Hnum Hcn.
  destruct (series_sum_nums col Hnum) as [z Hz].
  assert (Hstr : has_str col = false).
  { apply not_true_is_false. unfold has_str. rewrite existsb_exists.
    intros [v [Hv Hs]]. rewrite Forall_forall in Hnum.
    destruct (Hnum v Hv) as [Hn|[z' Hz']];
      [destruct v; simpl in *; discriminate | subst; discriminate]. }
  unfold generate_insights, revenue_block.
  rewrite (get_column_in _ _ _ Hcol), Hcol. cbn [bind].
  unfold series_mean. rewrite Hz. cbn [bind].
  unfold top_row. rewrite Hstr, andb_false_r. cbn [bind format_money].
  destruct (List.length (filter (fun v => negb (is_null v)) col));
    cbn [bind]; unfold top_name; simpl cols; rewrite Hcn; reflexivity.
Qed.

Lemma generate_insights_revenue_without_client_name_witness :
  get_column sheet_one_row "revenue" = Ok [VNum 100%Z] /\
  Forall (fun v => is_null v = true \/ exists z, v = VNum z) [VNum 100%Z] /\
  in_cols "client_name" (cols sheet_one_row) = false /\
  generate_insights stable_order_desc counts_first_seen sheet_one_row
  = Raise NameError.
Proof.
  split; [reflexivity|]. split; [constructor; [right; eauto | constructor]|].
  split; [reflexivity|].
  apply (generate_insights_revenue_without_client_name _ _ _ [VNum 100%Z]);
    [reflexivity | constructor; [right; eauto | constructor] | reflexivity].
Defined.

(** C3 (counterexample): a text cell in the [revenue] column is not
    excluded from the sum: [generate_insights] raises TypeError. *)
Lemma generate_insights_text_revenue_fails :
  generate_insights stable_order_desc counts_first_seen revenue_with_text
  = Raise TypeError.
Proof. vm_compute. reflexivity. Qed.

(** C3 (amended): whenever the [revenue] column holds a number and a
    text, [generate_insights] raises TypeError (there is no per-cell
    numeric coercion). *)
Theorem generate_insights_mixed_revenue_raises
  (order_desc : list cell -> list nat)
  (value_counts : list cell -> list (cell * nat))
  (t : table) (col : list cell) (n : Z) (s : string) :
  get_column t "revenue" = Ok col ->
  In (VNum n) col -> In (VStr s) col ->
  generate_insights order_desc value_counts t = Raise TypeError.
Proof.
  intros Hcol Hn Hs.
  unfold generate_insights, revenue_block.
  rewrite (get_column_in _ _ _ Hcol), Hcol. cbn [bind].
  rewrite (series_sum_mixed col n s Hn Hs). reflexivity.
Qed.

Lemma generate_insights_mixed_revenue_raises_witness :
  get_column revenue_with_text "revenue" = Ok [VNum 100%Z; VStr "n/a"] /\
  generate_insights stable_order_desc counts_first_seen revenue_with_text
  = Raise TypeError.
Proof.
  split; [reflexivity|].
  apply (generate_insights_mixed_revenue_raises _ _ _
           [VNum 100%Z; VStr "n/a"] 100%Z "n/a");
    [reflexivity | left; reflexivity | right; left; reflexivity].
Defined.

(* ------------------------------------------------------------------ *)
(** ** Per-file failure isolation *)

Lemma bind_assoc {A B C : Type} (m : res A) (k1 : A -> res B) (k2 : B -> res C) :
  bind (bind m k1) k2 = bind m (fun a => bind (k1 a) k2).
Proof. destruct m; reflexivity. Qed.

Lemma read_excel_files_app (keywords : list string) (combined : table)
      (fs1 fs2 : list upload) :
  read_excel_files keywords combined (fs1 ++ fs2)
  = r1 <- read_excel_files keywords combined fs1 ;;
    r2 <- read_excel_files keywords (fst r1) fs2 ;;
    Ok (fst r2, snd r1 ++ snd r2).
Proof.
  revert combined; induction fs1 as [|f fs1 IH]; intro combined; simpl.
  - destruct (read_excel_files keywords combined fs2) as [[c w]| |]; reflexivity.
  - rewrite bind_assoc.
    destruct (read_file keywords combined f) as [[c1 w1]| |]; simpl; auto.
    rewrite IH, !bind_assoc.
    destruct (read_excel_files keywords c1 fs1) as [[c2 w2]| |]; simpl; auto.
    destruct (read_excel_files keywords c2 fs2) as [[c3 w3]| |]; simpl; auto.
    rewrite app_assoc; reflexivity.
Qed.

Lemma read_file_corrupt (keywords : list string) (combined : table)
      (bad : upload) (err : string) :
  data bad = Corrupt err ->
  read_file keywords combined bad
  = Ok (combined, [mk_warning (name bad) (ReadError err)]).
Proof. intro H. unfold read_file. rewrite H. reflexivity. Qed.

(** C2: a file that cannot be opened as a workbook gives a warning naming
    it and its error, leaves the DataFrame as it was, and the
    consolidated result is the one of the other files alone. *)
Theorem consolidate_skips_unreadable_file (keywords : list string)
  (before after : list upload) (bad : upload) (err : string) :
  data bad = Corrupt err ->
  (forall combined, read_file keywords combined bad
                    = Ok (combined, [mk_warning (name bad) (ReadError err)])) /\
  map_res fst (consolidate keywords (before ++ bad :: after))
  = map_res fst (consolidate keywords (before ++ after)) /\
  (forall t ws, consolidate keywords (before ++ bad :: after) = Ok (t, ws) ->
                In (mk_warning (name bad) (ReadError err)) ws).
Proof.
  intro Hbad. split; [intro; apply read_file_corrupt; exact Hbad|].
  unfold consolidate. rewrite !read_excel_files_app.
  destruct (read_excel_files keywords empty_table before) as [[c1 w1]| |];
    [|split; [reflexivity | discriminate] ..].
  cbn [bind fst snd read_excel_files].
  rewrite (read_file_corrupt _ _ _ _ Hbad). cbn [bind fst snd].
  destruct (read_excel_files keywords c1 after) as [[c2 w2]| |];
    simpl; [|split; [reflexivity | discriminate] ..].
  split; [reflexivity|].
  intros t ws H. inversion H; subst.
  apply in_or_app. right. left. reflexivity.
Qed.

Lemma consolidate_skips_unreadable_file_witness :
  data (mk_upload "bad.xlsx" (Corrupt "File is not a zip file"))
  = Corrupt "File is not a zip file" /\
  map_res fst (consolidate []
                 ([book_one_sheet] ++
                  mk_upload "bad.xlsx" (Corrupt "File is not a zip file")
                  :: [book_one_sheet]))
  = map_res fst (consolidate [] ([book_one_sheet] ++ [book_one_sheet])).
Proof.
  split; [reflexivity|].
  apply (consolidate_skips_unreadable_file [] [book_one_sheet] [book_one_sheet]
           (mk_upload "bad.xlsx" (Corrupt "File is not a zip file"))
           "File is not a zip file").
  reflexivity.
Defined.

(* ------------------------------------------------------------------ *)
(** ** Column-union concatenation *)

Lemma in_cols_iff (c : string) (l : list string) :
  in_cols c l = true <-> In c l.
Proof.
  unfold in_cols. rewrite existsb_exists. split.
  - intros [x [Hx E]]. apply String.eqb_eq in E. subst. exact Hx.
  - intro H. exists c. split; [exact H | apply String.eqb_refl].
Qed.

Lemma filter_eqb_absent (x : string) (l : list string) :
  ~ In x l -> filter (String.eqb x) l = [].
Proof.
  induction l as [|y l IH]; intro H; [reflexivity|]. simpl.
  destruct (String.eqb x y) eqn:E.
  - apply String.eqb_eq in E. subst. exfalso. apply H. left. reflexivity.
  - apply IH. intro; apply H; right; assumption.
Qed.

Lemma occurrences_nodup (c : string) (l : list string) :
  NoDup l -> In c l -> occurrences c l = 1.
Proof.
  unfold occurrences. induction l as [|x l IH]; intros Hnd Hin; [destruct Hin|].
  inversion Hnd as [|? ? Hx Hnd']; subst. simpl.
  destruct (String.eqb c x) eqn:E.
  - apply String.eqb_eq in E. subst. simpl.
    rewrite filter_eqb_absent by assumption. reflexivity.
  - destruct Hin as [->|Hin]; [rewrite String.eqb_refl in E; discriminate|].
    apply IH; auto.
Qed.

Lemma forallb_occurrences_nodup (l : list string) :
  NoDup l -> forallb (fun c => Nat.eqb (occurrences c l) 1) l = true.
Proof.
  intro H. apply forallb_forall. intros c Hc.
  rewrite occurrences_nodup by assumption. reflexivity.
Qed.

Lemma index_not_in (c : string) (l : list string) :
  ~ In c l -> index c l = None.
Proof.
  induction l as [|x l IH]; intro H; simpl; [reflexivity|].
  destruct (String.eqb c x) eqn:E.
  - apply String.eqb_eq in E. subst. exfalso. apply H. left. reflexivity.
  - rewrite IH; [reflexivity | intro; apply H; right; assumption].
Qed.

Lemma reindex_self (l : list string) (r : row) :
  NoDup l -> List.length r = List.length l -> reindex l l r = r.
Proof.
  unfold reindex. revert r. induction l as [|c l IH]; intros r Hnd Hlen.
  - destruct r; [reflexivity | discriminate].
  - destruct r as [|v r]; [discriminate|].
    inversion Hnd as [|? ? Hc Hnd']; subst. simpl. rewrite String.eqb_refl.
    f_equal.
    transitivity (map (fun x => match index x l with
                                | Some i => nth i r VNull
                                | None => VNull
                                end) l);
      [| apply IH; [exact Hnd' | simpl in Hlen; lia]].
    apply map_ext_in. intros x Hx.
    destruct (String.eqb x c) eqn:E.
    + apply String.eqb_eq in E. subst. contradiction.
    + destruct (index x l); reflexivity.
Qed.

Lemma reindex_absent (old cs : list string) (r : row) :
  (forall c, In c cs -> ~ In c old) ->
  reindex old cs r = repeat VNull (List.length cs).
Proof.
  unfold reindex. induction cs as [|c cs IH]; intro H; [reflexivity|].
  simpl. rewrite index_not_in by (apply H; left; reflexivity).
  f_equal. apply IH. intros; apply H; right; assumption.
Qed.

Lemma reindex_app (old cs1 cs2 : list string) (r : row) :
  reindex old (cs1 ++ cs2) r = reindex old cs1 r ++ reindex old cs2 r.
Proof. unfold reindex. apply map_app. Qed.

Lemma filter_new_columns (l1 l2 : list string) :
  (forall c, In c l2 -> ~ In c l1) ->
  filter (fun c => negb (in_cols c l1)) l2 = l2.
Proof.
  induction l2 as [|c l2 IH]; intro H; [reflexivity|].
  simpl. destruct (in_cols c l1) eqn:E.
  - apply in_cols_iff in E. exfalso. apply (H c); [left|]; auto.
  - simpl. f_equal. apply IH. intros; apply H; right; assumption.
Qed.

(** C7: appending two sheets with disjoint column sets to the initially
    empty [combined_df] gives the union of the columns; each row is
    NaN-filled under the columns it did not have, and the row count is the
    sum of the two row counts. *)
Theorem concat_disjoint_columns (t1 t2 : table) :
  NoDup (cols t1) -> NoDup (cols t2) -> cols t1 <> [] ->
  (forall c, In c (cols t1) -> ~ In c (cols t2)) ->
  Forall (fun r => List.length r = List.length (cols t1)) (rows t1) ->
  Forall (fun r => List.length r = List.length (cols t2)) (rows t2) ->
  exists u,
    (c0 <- concat empty_table t1 ;; concat c0 t2) = Ok u /\
    cols u = cols t1 ++ cols t2 /\
    rows u = map (fun r => r ++ repeat VNull (List.length (cols t2))) (rows t1)
             ++ map (fun r => repeat VNull (List.length (cols t1)) ++ r) (rows t2) /\
    List.length (rows u) = List.length (rows t1) + List.length (rows t2).
Proof.
  destruct t1 as [cs1 rs1], t2 as [cs2 rs2]; simpl.
  intros Hnd1 Hnd2 Hne Hdisj Hlen1 Hlen2.
  assert (Hdisj' : forall c, In c cs2 -> ~ In c cs1)
    by (intros c H2 H1; exact (Hdisj c H1 H2)).
  assert (Hstep1 : concat empty_table (mk_table cs1 rs1) = Ok (mk_table cs1 rs1)).
  { unfold concat; cbn [cols rows empty_table].
    destruct (list_eq_dec string_dec [] cs1) as [E|_]; [congruence|].
    rewrite (forallb_occurrences_nodup cs1 Hnd1).
    rewrite (filter_new_columns [] cs1) by (intros c _ []). simpl.
    f_equal. f_equal. rewrite <- (map_id rs1) at 2.
    apply map_ext_in. intros r Hr. rewrite Forall_forall in Hlen1.
    apply reindex_self; auto. }
  rewrite Hstep1. cbn [bind].
  unfold concat; cbn [cols rows].
  destruct (list_eq_dec string_dec cs1 cs2) as [E|_].
  { subst. destruct cs2 as [|c cs2]; [congruence|].
    exfalso. apply (Hdisj c); left; reflexivity. }
  rewrite (forallb_occurrences_nodup cs1 Hnd1), (forallb_occurrences_nodup cs2 Hnd2).
  rewrite filter_new_columns by assumption. simpl.
  eexists. split; [reflexivity|]. simpl. split; [reflexivity|].
  assert (Hrows :
    map (reindex cs1 (cs1 ++ cs2)) rs1 ++ map (reindex cs2 (cs1 ++ cs2)) rs2
    = map (fun r => r ++ repeat VNull (List.length cs2)) rs1
      ++ map (fun r => repeat VNull (List.length cs1) ++ r) rs2).
  { rewrite Forall_forall in Hlen1, Hlen2. f_equal; apply map_ext_in; intros r Hr;
      rewrite reindex_app.
    - rewrite reindex_self, reindex_absent by auto. reflexivity.
    - rewrite reindex_self, reindex_absent by auto. reflexivity. }
  rewrite Hrows. split; [reflexivity|].
  rewrite length_app, !length_map. reflexivity.
Qed.

Lemma concat_disjoint_columns_witness :
  let t1 := mk_table ["a"%string; "b"%string] [[VNum 1%Z; VNum 2%Z]] in
  let t2 := mk_table ["c"%string; "d"%string] [[VStr "x"; VStr "y"]; [VNum 3%Z; VNull]] in
  exists u,
    (c0 <- concat empty_table t1 ;; concat c0 t2) = Ok u /\
    cols u = cols t1 ++ cols t2 /\
    rows u = map (fun r => r ++ repeat VNull (List.length (cols t2))) (rows t1)
             ++ map (fun r => repeat VNull (List.length (cols t1)) ++ r) (rows t2) /\
    List.length (rows u) = List.length (rows t1) + List.length (rows t2).
Proof.
  intros t1 t2. apply concat_disjoint_columns.
  - repeat constructor; simpl; intuition discriminate.
  - repeat constructor; simpl; intuition discriminate.
  - discriminate.
  - simpl. intros c H1 H2. intuition (subst; discriminate).
  - repeat constructor.
  - repeat constructor.
Defined.

(* ------------------------------------------------------------------ *)
(** ** The consolidated DataFrame *)

Lemma norm_clean_chars (c : string) :
  list_ascii_of_string (norm_clean c)
  = map (fun b => space_to_underscore (lower_ascii b))
        (rev (drop_ws (rev (drop_ws (list_ascii_of_string c))))).
Proof.
  unfold norm_clean, replace_space, lower, strip.
  rewrite !list_ascii_of_string_of_list_ascii, map_map. reflexivity.
Qed.

Lemma normalized_char (b : ascii) :
  is_upper (space_to_underscore (lower_ascii b)) = false /\
  Ascii.eqb (space_to_underscore (lower_ascii b)) " "%char = false.
Proof. destruct b as [[] [] [] [] [] [] [] []]; split; reflexivity. Qed.

Lemma normalized_char_ws (b : ascii) :
  is_ws b = false -> is_ws (space_to_underscore (lower_ascii b)) = false.
Proof.
  destruct b as [[] [] [] [] [] [] [] []]; intro H;
    first [reflexivity | vm_compute in H; discriminate].
Qed.

Lemma drop_ws_suffix (l : list ascii) : exists p, l = p ++ drop_ws l.
Proof.
  induction l as [|a l [p Hp]]; [exists []; reflexivity|]. simpl.
  destruct (is_ws a); [exists (a :: p); simpl; f_equal; exact Hp | exists []; reflexivity].
Qed.

Lemma drop_ws_head (l : list ascii) :
  match drop_ws l with [] => True | a :: _ => is_ws a = false end.
Proof.
  induction l as [|a l IH]; simpl; [exact I|].
  destruct (is_ws a) eqn:E; [exact IH | exact E].
Qed.

Lemma last_map_ascii (h : ascii -> ascii) (l : list ascii) (d : ascii) :
  last (map h l) (h d) = h (last l d).
Proof.
  induction l as [|a l IH]; [reflexivity|].
  destruct l as [|b l]; [reflexivity|]. simpl in *. exact IH.
Qed.

Lemma strip_ends (l : list ascii) :
  match rev (drop_ws (rev (drop_ws l))) with
  | [] => True
  | a :: _ => is_ws a = false /\ is_ws (last (rev (drop_ws (rev (drop_ws l)))) a) = false
  end.
Proof.
  set (M := drop_ws l).
  destruct (drop_ws_suffix (rev M)) as [p Hp].
  set (D := drop_ws (rev M)) in *.
  assert (HD := drop_ws_head (rev M)). fold D in HD.
  assert (HM := drop_ws_head l). fold M in HM.
  destruct D as [|d D'] eqn:ED; [simpl; exact I|].
  assert (HMeq : M = rev (d :: D') ++ rev p)
    by (rewrite <- (rev_involutive M), Hp, rev_app_distr; reflexivity).
  destruct (rev (d :: D')) as [|a L'] eqn:EL.
  - exact I.
  - split.
    + rewrite HMeq in HM. exact HM.
    + rewrite <- EL. simpl rev. rewrite last_last. exact HD.
Qed.

Lemma norm_clean_normalized (c : string) : col_normalized (norm_clean c) = true.
Proof.
  unfold col_normalized. rewrite norm_clean_chars.
  set (h := fun b => space_to_underscore (lower_ascii b)).
  assert (Hends := strip_ends (list_ascii_of_string c)).
  set (L := rev (drop_ws (rev (drop_ws (list_ascii_of_string c))))) in *.
  apply andb_true_intro. split.
  - apply forallb_forall. intros x Hx. apply in_map_iff in Hx.
    destruct Hx as [b [<- _]]. destruct (normalized_char b) as [H1 H2].
    unfold h. rewrite H1, H2. reflexivity.
  - destruct L as [|a L'] eqn:EL; [reflexivity|].
    destruct Hends as [Ha Hl].
    change (match map h (a :: L') with
            | [] => true
            | a0 :: _ => negb (is_ws a0) && negb (is_ws (last (map h (a :: L')) a0))
            end = true).
    cbn [map]. change (h a :: map h L') with (map h (a :: L')).
    rewrite last_map_ascii.
    unfold h. rewrite !normalized_char_ws by assumption. reflexivity.
Qed.

Lemma row_eqb_true (r1 r2 : row) : row_eqb r1 r2 = true <-> r1 = r2.
Proof.
  unfold row_eqb. destruct (list_eq_dec cell_eq_dec r1 r2); split; congruence.
Qed.

Lemma drop_duplicates_from_in (seen rs : list row) (r : row) :
  In r (drop_duplicates_from seen rs) -> In r rs.
Proof.
  revert seen; induction rs as [|x rs IH]; intros seen H; simpl in *; [exact H|].
  destruct (existsb (row_eqb x) seen).
  - right. eapply IH; exact H.
  - destruct H as [<-|H]; [left; reflexivity | right; eapply IH; exact H].
Qed.

Lemma drop_duplicates_from_nodup (seen rs : list row) :
  NoDup (drop_duplicates_from seen rs) /\
  (forall r, In r (drop_duplicates_from seen rs) -> ~ In r seen).
Proof.
  revert seen; induction rs as [|x rs IH]; intro seen; simpl.
  - split; [constructor | intros _ []].
  - destruct (existsb (row_eqb x) seen) eqn:E; [apply IH|].
    destruct (IH (x :: seen)) as [Hnd Hout].
    assert (Hx : ~ In x seen).
    { intro Hin. apply not_true_iff_false in E. apply E.
      apply existsb_exists. exists x. split; [exact Hin | apply row_eqb_true; reflexivity]. }
    split.
    + constructor; [intro Hin; apply (Hout x Hin); left; reflexivity | exact Hnd].
    + intros r [<-|Hr]; [exact Hx|].
      intro Hs. apply (Hout r Hr). right. exact Hs.
Qed.

(** C8: whatever the files and keywords, the DataFrame [consolidate]
    returns has no row made only of empty cells, no two equal rows, and
    only lowercase, trimmed column names without spaces. *)
Theorem consolidate_invariant (keywords : list string) (files : list upload)
  (t : table) (ws : list warning) :
  consolidate keywords files = Ok (t, ws) ->
  (forall r, In r (rows t) -> existsb (fun v => negb (is_null v)) r = true) /\
  NoDup (rows t) /\
  Forall (fun c => col_normalized c = true) (cols t).
Proof.
  unfold consolidate.
  destruct (read_excel_files keywords empty_table files) as [[c w]| |];
    simpl; intro H; inversion H; subst; clear H.
  unfold deduplicate, clean_and_standardize; simpl.
  split; [|split].
  - intros r Hr. apply drop_duplicates_from_in in Hr.
    apply filter_In in Hr. destruct Hr as [_ Hr].
    destruct (existsb (fun v => negb (is_null v)) r) eqn:E; [reflexivity|].
    rewrite <- E. clear E. induction r as [|v r IHr]; [discriminate|].
    simpl in *. destruct (is_null v); simpl in *; [apply IHr; exact Hr | reflexivity].
  - apply drop_duplicates_from_nodup.
  - apply Forall_forall. intros x Hx. apply in_map_iff in Hx.
    destruct Hx as [c0 [<- _]]. apply norm_clean_normalized.
Qed.

Lemma consolidate_invariant_witness :
  let t := mk_table ["revenue"%string; "client_name"%string;
                     "source_file"%string; "sheet_name"%string]
                    [[VNum 100%Z; VStr "A"; VStr "book.xlsx"; VStr "Sheet1"];
                     [VNull; VNull; VStr "book.xlsx"; VStr "Sheet1"]] in
  consolidate [] [messy_book] = Ok (t, []) /\
  (forall r, In r (rows t) -> existsb (fun v => negb (is_null v)) r = true) /\
  NoDup (rows t) /\
  Forall (fun c => col_normalized c = true) (cols t).
Proof.
  intro t. split; [vm_compute; reflexivity|].
  apply (consolidate_invariant [] [messy_book] t []).
  vm_compute. reflexivity.
Defined.

(* ------------------------------------------------------------------ *)
(** ** Metacharacter-free keywords: the regex is a substring search *)

Lemma list_ascii_of_string_app (a b : string) :
  list_ascii_of_string (a ++ b) = list_ascii_of_string a ++ list_ascii_of_string b.
Proof. induction a as [|c a IH]; simpl; [reflexivity | f_equal; exact IH]. Qed.

Lemma concat_bar_chars (ks : list string) :
  list_ascii_of_string (String.concat "|" ks) = join_bar (map list_ascii_of_string ks).
Proof.
  induction ks as [|k ks IH]; [reflexivity|].
  destruct ks as [|k2 ks]; [reflexivity|].
  change (String.concat "|" (k :: k2 :: ks))
    with (k ++ "|" ++ String.concat "|" (k2 :: ks))%string.
  rewrite !list_ascii_of_string_app, IH. reflexivity.
Qed.

Lemma no_meta_char (c : ascii) :
  is_meta c = false ->
  Ascii.eqb c "|"%char = false /\ Ascii.eqb c ")"%char = false /\
  Ascii.eqb c "("%char = false /\ Ascii.eqb c "."%char = false /\
  is_unmodelled_meta c = false.
Proof.
  destruct c as [[] [] [] [] [] [] [] []]; intro H;
    first [vm_compute in H; discriminate | repeat split].
Qed.

Lemma parse_seq_lit (k rest : list ascii) (f : nat) :
  forallb (fun c => negb (is_meta c)) k = true ->
  (rest = [] \/ exists r', rest = "|"%char :: r') ->
  List.length k < f ->
  parse_seq f (k ++ rest) = POk (lit k) rest.
Proof.
  revert f; induction k as [|c k IH]; intros f Hk Hrest Hf;
    (destruct f as [|f]; [simpl in Hf; lia|]).
  - destruct Hrest as [->|[r' ->]]; reflexivity.
  - simpl in Hk. apply andb_true_iff in Hk as [Hc Hk]. apply negb_true_iff in Hc.
    destruct (no_meta_char c Hc) as (H1 & H2 & H3 & H4 & H5).
    cbn [parse_seq app]. rewrite H1, H2, H3, H5, H4. cbn [orb].
    rewrite IH by (simpl in Hf; auto; lia). reflexivity.
Qed.

Lemma parse_sub_alts (ks : list (list ascii)) (f : nat) :
  ks <> [] ->
  Forall (fun k => forallb (fun c => negb (is_meta c)) k = true) ks ->
  List.length (join_bar ks) + 2 <= f ->
  parse_sub f (join_bar ks) = POk (alts ks) [].
Proof.
  revert f; induction ks as [|k ks IH]; intros f Hne Hall Hf; [congruence|].
  inversion Hall as [|? ? Hk Hks]; subst.
  destruct f as [|f]; [lia|].
  destruct ks as [|k2 ks].
  - cbn [join_bar alts parse_sub]. cbn [join_bar] in Hf.
    rewrite <- (app_nil_r k) at 1.
    rewrite parse_seq_lit; [| exact Hk | left; reflexivity | lia].
    reflexivity.
  - change (join_bar (k :: k2 :: ks)) with (k ++ "|"%char :: join_bar (k2 :: ks))
      in Hf |- *.
    cbn [parse_sub].
    rewrite length_app in Hf. cbn [List.length] in Hf.
    rewrite parse_seq_lit; [| exact Hk | right; eexists; reflexivity | lia].
    cbn [Ascii.eqb Bool.eqb andb].
    rewrite IH; [reflexivity | discriminate | exact Hks | lia].
Qed.

Lemma re_compile_literal (keywords : list string) :
  keywords <> [] -> Forall (fun k => no_meta k = true) keywords ->
  re_compile (String.concat "|" keywords)
  = Ok (alts (map list_ascii_of_string keywords)).
Proof.
  intros Hne Hall. unfold re_compile. rewrite concat_bar_chars.
  rewrite parse_sub_alts; [reflexivity | | |lia].
  - destruct keywords; [congruence | discriminate].
  - apply Forall_map. exact Hall.
Qed.

Lemma rmatch_lit (k s : list ascii) (kont : list ascii -> bool) :
  rmatch (lit k) s kont = true ->
  is_prefix (map lower_ascii k) (map lower_ascii s) = true.
Proof.
  revert s; induction k as [|c k IH]; intros s H; [reflexivity|].
  destruct s as [|x s]; [discriminate|].
  cbn [lit fold_right rmatch] in H. apply andb_true_iff in H as [Hc H].
  cbn [map is_prefix]. rewrite Hc. apply IH. exact H.
Qed.

Lemma rmatch_alts (ks : list (list ascii)) (s : list ascii) (kont : list ascii -> bool) :
  ks <> [] -> rmatch (alts ks) s kont = true ->
  exists k, In k ks /\ is_prefix (map lower_ascii k) (map lower_ascii s) = true.
Proof.
  induction ks as [|k ks IH]; intros Hne H; [congruence|].
  destruct ks as [|k2 ks].
  - exists k. split; [left; reflexivity | eapply rmatch_lit; exact H].
  - cbn [alts rmatch] in H. apply orb_true_iff in H as [H|H].
    + exists k. split; [left; reflexivity | eapply rmatch_lit; exact H].
    + destruct (IH ltac:(discriminate) H) as [k' [Hk' Hp]].
      exists k'. split; [right; exact Hk' | exact Hp].
Qed.

Lemma contains_l_prefix (p s : list ascii) :
  is_prefix p s = true -> contains_l p s = true.
Proof. intro H. destruct s; cbn [contains_l]; rewrite H; reflexivity. Qed.

Lemma re_search_alts (ks : list (list ascii)) (s : list ascii) :
  ks <> [] -> re_search (alts ks) s = true ->
  exists k, In k ks /\ contains_l (map lower_ascii k) (map lower_ascii s) = true.
Proof.
  intro Hne. induction s as [|x s IH]; intro H; cbn [re_search] in H;
    apply orb_true_iff in H as [H|H].
  - destruct (rmatch_alts ks [] _ Hne H) as [k [Hk Hp]].
    exists k. split; [exact Hk | apply contains_l_prefix; exact Hp].
  - discriminate.
  - destruct (rmatch_alts ks _ _ Hne H) as [k [Hk Hp]].
    exists k. split; [exact Hk | apply contains_l_prefix; exact Hp].
  - destruct (IH H) as [k [Hk Hc]].
    exists k. split; [exact Hk|]. cbn [map contains_l]. rewrite Hc.
    apply orb_true_r.
Qed.

Lemma mapM_const {A B : Type} (f : A -> res B) (b : B) (l : list A) :
  (forall x, In x l -> f x = Ok b) -> mapM f l = Ok (map (fun _ => b) l).
Proof.
  induction l as [|x l IH]; intro H; [reflexivity|].
  cbn [mapM]. rewrite H by (left; reflexivity). cbn [bind].
  rewrite IH by (intros; apply H; right; assumption). reflexivity.
Qed.

Lemma filter_none {A : Type} (p : A -> bool) (l : list A) :
  (forall x, In x l -> p x = false) -> filter p l = [].
Proof.
  induction l as [|x l IH]; intro H; [reflexivity|]. simpl.
  rewrite H by (left; reflexivity).
  apply IH. intros; apply H; right; assumption.
Qed.

Lemma float_cols_rename (f : string -> string) (t : table) :
  float_cols (mk_table (map f (cols t)) (rows t)) = float_cols t.
Proof. unfold float_cols, column_at. cbn [cols rows]. rewrite length_map. reflexivity. Qed.




(* ================================================================== *)
(** * Further properties of the code *)

(* ------------------------------------------------------------------ *)
(** ** [deduplicate] and [clean_and_standardize] *)

Lemma drop_duplicates_from_fresh (seen rs : list row) :
  NoDup rs -> (forall r, In r rs -> ~ In r seen) ->
  drop_duplicates_from seen rs = rs.
Proof.
  revert seen; induction rs as [|x rs IH]; intros seen Hnd Hout; [reflexivity|].
  inversion Hnd as [|? ? Hx Hnd']; subst. simpl.
  destruct (existsb (row_eqb x) seen) eqn:E.
  - exfalso. apply existsb_exists in E. destruct E as [y [Hy Hxy]].
    apply row_eqb_true in Hxy. subst. apply (Hout y); [left; reflexivity | exact Hy].
  - f_equal. apply IH; [exact Hnd'|].
    intros r Hr [<-|Hs]; [contradiction | apply (Hout r); [right; exact Hr | exact Hs]].
Qed.

(** [drop_duplicates()] is idempotent. *)
Theorem deduplicate_idempotent (t : table) :
  deduplicate (deduplicate t) = deduplicate t.
Proof.
  unfold deduplicate; simpl. f_equal.
  apply drop_duplicates_from_fresh; [apply drop_duplicates_from_nodup | intros _ _ []].
Qed.

Lemma drop_duplicates_from_keeps (seen rs : list row) (r : row) :
  In r rs -> In r (drop_duplicates_from seen rs) \/ In r seen.
Proof.
  revert seen; induction rs as [|x rs IH]; intros seen H; [destruct H|]. simpl.
  destruct (existsb (row_eqb x) seen) eqn:E.
  - destruct H as [<-|H]; [|apply IH; exact H].
    right. apply existsb_exists in E. destruct E as [y [Hy Hxy]].
    apply row_eqb_true in Hxy. subst. exact Hy.
  - destruct H as [<-|H]; [left; left; reflexivity|].
    destruct (IH (x :: seen) H) as [H'|[Hx|H']].
    + left; right; exact H'.
    + subst; left; left; reflexivity.
    + right; exact H'.
Qed.

(** [drop_duplicates()] removes only repeated rows: a row is in the result
    exactly when it is in the input, and the columns are kept. *)
Theorem deduplicate_same_rows (t : table) (r : row) :
  cols (deduplicate t) = cols t /\
  (In r (rows (deduplicate t)) <-> In r (rows t)).
Proof.
  unfold deduplicate; simpl. split; [reflexivity|]. split.
  - apply drop_duplicates_from_in.
  - intro H. destruct (drop_duplicates_from_keeps [] (rows t) r H) as [H'|[]]. exact H'.
Qed.

Lemma strip_list_id (l : list ascii) :
  match l with [] => True | a :: _ => is_ws a = false /\ is_ws (last l a) = false end ->
  rev (drop_ws (rev (drop_ws l))) = l.
Proof.
  destruct l as [|a l']; [reflexivity|]. intros [Ha Hl].
  cbn [drop_ws]. rewrite Ha.
  rewrite (app_removelast_last a (l := a :: l')) at 1 by discriminate.
  rewrite rev_app_distr. cbn [rev app drop_ws]. rewrite Hl.
  change (last (a :: l') a :: rev (removelast (a :: l')))
    with (rev ([last (a :: l') a]) ++ rev (removelast (a :: l'))).
  rewrite <- rev_app_distr, rev_involutive, <- app_removelast_last by discriminate.
  reflexivity.
Qed.

Lemma normalized_char_id (b : ascii) :
  is_upper b = false -> Ascii.eqb b " "%char = false ->
  space_to_underscore (lower_ascii b) = b.
Proof.
  intros Hu Hs. unfold lower_ascii. rewrite Hu. unfold space_to_underscore.
  rewrite Hs. reflexivity.
Qed.

Lemma norm_clean_id (s : string) : col_normalized s = true -> norm_clean s = s.
Proof.
  unfold col_normalized. intro H. apply andb_true_iff in H as [Hch Hends].
  rewrite <- (string_of_list_ascii_of_string (norm_clean s)), norm_clean_chars.
  rewrite strip_list_id.
  - rewrite map_ext_in with (g := fun b => b), map_id;
      [apply string_of_list_ascii_of_string|].
    intros b Hb. rewrite forallb_forall in Hch. specialize (Hch b Hb).
    apply andb_true_iff in Hch as [Hu Hs]. apply negb_true_iff in Hu, Hs.
    apply normalized_char_id; assumption.
  - destruct (list_ascii_of_string s); [exact I|].
    apply andb_true_iff in Hends as [H1 H2]. apply negb_true_iff in H1, H2. auto.
Qed.

Lemma filter_idem {A : Type} (p : A -> bool) (l : list A) :
  filter p (filter p l) = filter p l.
Proof.
  induction l as [|x l IH]; [reflexivity|]. simpl.
  destruct (p x) eqn:E; simpl; [rewrite E, IH|]; auto.
Qed.

(** [clean_and_standardize] is idempotent: cleaning a cleaned DataFrame
    changes neither its rows nor its column names. *)
Theorem clean_and_standardize_idempotent (t : table) :
  clean_and_standardize (clean_and_standardize t) = clean_and_standardize t.
Proof.
  unfold clean_and_standardize; simpl. f_equal.
  - rewrite map_map. apply map_ext. intro c.
    apply norm_clean_id, norm_clean_normalized.
  - apply filter_idem.
Qed.

(* ------------------------------------------------------------------ *)
(** ** Keyword normalization (lines 14 and 125) *)

Lemma is_ws_lower_ascii (a : ascii) : is_ws (lower_ascii a) = is_ws a.
Proof. destruct a as [[] [] [] [] [] [] [] []]; reflexivity. Qed.

Lemma drop_ws_map_lower (l : list ascii) :
  drop_ws (map lower_ascii l) = map lower_ascii (drop_ws l).
Proof.
  induction l as [|a l IH]; [reflexivity|]. cbn [map drop_ws].
  rewrite is_ws_lower_ascii. destruct (is_ws a); [exact IH | reflexivity].
Qed.

(** The keyword normalization of [__init__] and [smart_search]
    ([lower().strip().replace(" ", "_")]) and the column cleaning of
    [clean_and_standardize] ([strip().lower().replace(' ', '_')]) agree on
    every string. *)
Theorem norm_search_eq_norm_clean (s : string) : norm_search s = norm_clean s.
Proof.
  unfold norm_search, norm_clean, strip, lower.
  rewrite !list_ascii_of_string_of_list_ascii. f_equal. f_equal.
  rewrite drop_ws_map_lower, <- map_rev, drop_ws_map_lower, map_rev. reflexivity.
Qed.

Lemma strip_list_idem (l : list ascii) :
  let S := fun l => rev (drop_ws (rev (drop_ws l))) in S (S l) = S l.
Proof.
  intro S. apply strip_list_id. exact (strip_ends l).
Qed.

Lemma split_filter_in (s : string) (k : string) :
  In k (main_keywords s) -> exists k0, k = strip k0 /\ strip k0 <> ""%string.
Proof.
  unfold main_keywords. intro H. apply in_map_iff in H as [k0 [<- H]].
  apply filter_In in H as [_ H]. exists k0. split; [reflexivity|].
  apply negb_true_iff, String.eqb_neq in H. exact H.
Qed.

(** Every keyword that [main] parses from the comma-separated input and
    [__init__] normalizes is non-empty, lowercase, free of spaces and of
    surrounding whitespace. *)
Theorem main_keywords_normalized (s k : string) :
  In k (init_keywords (Some (main_keywords s))) ->
  k <> ""%string /\ col_normalized k = true.
Proof.
  cbn [init_keywords]. intro H. apply in_map_iff in H as [k1 [<- H]].
  destruct (split_filter_in s k1 H) as [k0 [-> Hne]].
  rewrite norm_search_eq_norm_clean. split; [|apply norm_clean_normalized].
  intro Hk. apply (f_equal list_ascii_of_string) in Hk.
  rewrite norm_clean_chars in Hk. unfold strip in Hk, Hne.
  rewrite list_ascii_of_string_of_list_ascii in Hk.
  rewrite (strip_list_idem (list_ascii_of_string k0)) in Hk.
  apply map_eq_nil in Hk. rewrite Hk in Hne. apply Hne. reflexivity.
Qed.

Lemma main_keywords_normalized_witness :
  In "client_name"%string (init_keywords (Some (main_keywords " Client Name ,x"))) /\
  "client_name"%string <> ""%string /\ col_normalized "client_name" = true.
Proof.
  assert (H : In "client_name"%string
                (init_keywords (Some (main_keywords " Client Name ,x"))))
    by (vm_compute; left; reflexivity).
  split; [exact H | apply (main_keywords_normalized " Client Name ,x"); exact H].
Defined.

(* ------------------------------------------------------------------ *)
(** ** DataFrame operations: column assignment, selection, concatenation *)

Lemma index_lt (c : string) (l : list string) (i : nat) :
  index c l = Some i -> i < List.length l.
Proof.
  revert i; induction l as [|x l IH]; intros i H; [discriminate|]. simpl in H.
  destruct (String.eqb c x); [injection H as <-; simpl; lia|].
  destruct (index c l) as [j|] eqn:E; [|discriminate].
  injection H as <-. specialize (IH j eq_refl). simpl. lia.
Qed.

Lemma index_nth (c : string) (l : list string) (i : nat) :
  index c l = Some i -> nth i l ""%string = c.
Proof.
  revert i; induction l as [|x l IH]; intros i H; [discriminate|]. simpl in H.
  destruct (String.eqb c x) eqn:Ec.
  - injection H as <-. apply String.eqb_eq in Ec. symmetry; exact Ec.
  - destruct (index c l) as [j|] eqn:E; [|discriminate].
    injection H as <-. apply IH; reflexivity.
Qed.

Lemma index_none_occ (c : string) (l : list string) :
  occurrences c l = 0 -> index c l = None.
Proof.
  unfold occurrences. induction l as [|x l IH]; intro H; [reflexivity|]. simpl in *.
  destruct (String.eqb c x); [discriminate|]. rewrite IH; auto.
Qed.

Lemma index_snoc (c x : string) (l : list string) :
  index c (l ++ [x]) =
  match index c l with
  | Some i => Some i
  | None => if String.eqb c x then Some (List.length l) else None
  end.
Proof.
  induction l as [|y l IH]; simpl; [destruct (String.eqb c x); reflexivity|].
  destruct (String.eqb c y); [reflexivity|]. rewrite IH.
  destruct (index c l); [reflexivity|]. destruct (String.eqb c x); reflexivity.
Qed.

Lemma occurrences_snoc (c x : string) (l : list string) :
  occurrences c (l ++ [x]) = occurrences c l + (if String.eqb c x then 1 else 0).
Proof.
  unfold occurrences. rewrite filter_app, length_app. simpl.
  destruct (String.eqb c x); reflexivity.
Qed.

Lemma nth_update (r : row) (i j : nat) (v d : cell) :
  i < List.length r ->
  nth j (firstn i r ++ v :: skipn (S i) r) d = if Nat.eqb j i then v else nth j r d.
Proof.
  revert i j; induction r as [|a r IH]; intros i j Hi; [simpl in Hi; lia|].
  destruct i as [|i], j as [|j]; try reflexivity.
  simpl in Hi |- *. apply IH. lia.
Qed.

Lemma length_update (r : row) (i : nat) (v : cell) :
  i < List.length r ->
  List.length (firstn i r ++ v :: skipn (S i) r) = List.length r.
Proof.
  intro Hi. rewrite length_app, length_firstn. cbn [List.length].
  rewrite length_skipn. lia.
Qed.

Lemma nth_snoc (r : row) (j : nat) (v d : cell) :
  nth j (r ++ [v]) d =
  if Nat.ltb j (List.length r) then nth j r d
  else if Nat.eqb j (List.length r) then v else d.
Proof.
  destruct (Nat.ltb j (List.length r)) eqn:E.
  - apply Nat.ltb_lt in E. apply app_nth1; exact E.
  - apply Nat.ltb_ge in E. rewrite app_nth2 by exact E.
    destruct (Nat.eqb j (List.length r)) eqn:E2.
    + apply Nat.eqb_eq in E2. rewrite E2, Nat.sub_diag. reflexivity.
    + apply Nat.eqb_neq in E2. destruct (j - List.length r) eqn:E3; [lia|].
      destruct n; reflexivity.
Qed.

Lemma rows_fit_iff (t : table) :
  rows_fit t = true <-> forall r, In r (rows t) -> List.length r = List.length (cols t).
Proof.
  unfold rows_fit. rewrite forallb_forall.
  split; intros H r Hr; [apply Nat.eqb_eq; auto | apply Nat.eqb_eq; auto].
Qed.

(** [df[name] = v] (lines 22-23) on a DataFrame whose rows fit its
    columns: the rows still fit, no row is added or lost, reading the
    column back gives [v] on every row, and every other column reads as
    before. *)
Theorem set_column_get_column (name : string) (v : cell) (t t' : table) :
  rows_fit t = true -> set_column name v t = Ok t' ->
  rows_fit t' = true /\ List.length (rows t') = List.length (rows t) /\
  get_column t' name = Ok (repeat v (List.length (rows t))) /\
  (forall c, c <> name -> get_column t' c = get_column t c).
Proof.
  intros Hfit Hset. rewrite rows_fit_iff in Hfit. unfold set_column in Hset.
  destruct (occurrences name (cols t)) as [|[|k]] eqn:Hocc.
  - injection Hset as <-. cbn [rows cols].
    assert (Hidx : index name (cols t ++ [name]) = Some (List.length (cols t)))
      by (rewrite index_snoc, index_none_occ, String.eqb_refl by exact Hocc; reflexivity).
    split; [|split; [|split]].
    + apply rows_fit_iff. intros r Hr. apply in_map_iff in Hr as [r0 [<- Hr0]].
      cbn [cols]. rewrite !length_app, (Hfit r0 Hr0). reflexivity.
    + apply length_map.
    + unfold get_column. cbn [rows cols].
      rewrite occurrences_snoc, Hocc, String.eqb_refl, Hidx. cbn.
      f_equal. rewrite map_map, <- (map_const v (rows t)).
      apply map_ext_in. intros r Hr.
      rewrite nth_snoc, (Hfit r Hr), Nat.ltb_irrefl, Nat.eqb_refl. reflexivity.
    + intros c Hc. unfold get_column. cbn [rows cols].
      rewrite occurrences_snoc, index_snoc.
      destruct (String.eqb c name) eqn:Ecn; [apply String.eqb_eq in Ecn; contradiction|].
      rewrite Nat.add_0_r.
      destruct (occurrences c (cols t)) as [|[|]]; try reflexivity.
      destruct (index c (cols t)) as [j|] eqn:Ej; [|reflexivity].
      f_equal. rewrite map_map. apply map_ext_in. intros r Hr.
      rewrite nth_snoc, (Hfit r Hr).
      apply index_lt in Ej. apply Nat.ltb_lt in Ej. rewrite Ej. reflexivity.
  - destruct (index name (cols t)) as [i|] eqn:Hi; [|discriminate].
    injection Hset as <-. cbn [rows cols].
    assert (Hlt := index_lt _ _ _ Hi).
    split; [|split; [|split]].
    + apply rows_fit_iff. intros r Hr. apply in_map_iff in Hr as [r0 [<- Hr0]].
      cbn [cols]. rewrite length_update by (rewrite (Hfit r0 Hr0); exact Hlt).
      apply Hfit; exact Hr0.
    + apply length_map.
    + unfold get_column. cbn [rows cols]. rewrite Hocc, Hi.
      f_equal. rewrite map_map, <- (map_const v (rows t)).
      apply map_ext_in. intros r Hr.
      rewrite nth_update, Nat.eqb_refl by (rewrite (Hfit r Hr); exact Hlt).
      reflexivity.
    + intros c Hc. unfold get_column. cbn [rows cols].
      destruct (occurrences c (cols t)) as [|[|]]; try reflexivity.
      destruct (index c (cols t)) as [j|] eqn:Ej; [|reflexivity].
      f_equal. rewrite map_map. apply map_ext_in. intros r Hr.
      rewrite nth_update by (rewrite (Hfit r Hr); exact Hlt).
      destruct (Nat.eqb j i) eqn:Eji; [|reflexivity].
      apply Nat.eqb_eq in Eji. subst j.
      apply index_nth in Ej, Hi. congruence.
  - destruct (index name (cols t)); discriminate.
Qed.

Lemma set_column_get_column_witness :
  rows_fit sheet_one_row = true /\
  set_column "source_file" (VStr "book.xlsx") sheet_one_row
  = Ok (mk_table ["revenue"%string; "source_file"%string]
                 [[VNum 100%Z; VStr "book.xlsx"]]) /\
  get_column (mk_table ["revenue"%string; "source_file"%string]
                       [[VNum 100%Z; VStr "book.xlsx"]]) "source_file"
  = Ok (repeat (VStr "book.xlsx") 1).
Proof.
  assert (Hf : rows_fit sheet_one_row = true) by reflexivity.
  assert (Hs : set_column "source_file" (VStr "book.xlsx") sheet_one_row
               = Ok (mk_table ["revenue"%string; "source_file"%string]
                              [[VNum 100%Z; VStr "book.xlsx"]])) by reflexivity.
  split; [exact Hf|]. split; [exact Hs|].
  exact (proj1 (proj2 (proj2 (set_column_get_column _ _ _ _ Hf Hs)))).
Defined.

(** [pd.concat([t1, t2], ignore_index=True)] (lines 26 and 28) loses no
    row and adds none: its rows are those of [t1] then those of [t2], and
    the columns of [t1] come first, in their order. *)
Theorem concat_row_count (t1 t2 u : table) :
  concat t1 t2 = Ok u ->
  List.length (rows u) = List.length (rows t1) + List.length (rows t2) /\
  exists extra, cols u = cols t1 ++ extra.
Proof.
  unfold concat. intro H.
  destruct (list_eq_dec string_dec (cols t1) (cols t2)).
  - injection H as <-. cbn [rows cols]. rewrite length_app.
    split; [reflexivity | exists []; rewrite app_nil_r; reflexivity].
  - destruct (_ && _); [|discriminate]. injection H as <-. cbn [rows cols].
    rewrite length_app, !length_map. split; [reflexivity | eexists; reflexivity].
Qed.

Lemma concat_row_count_witness :
  concat sheet_one_row client_name_sheet
  = Ok (mk_table ["revenue"%string; "Client Name"%string; "x"%string]
                 [[VNum 100%Z; VNull; VNull]; [VNull; VStr "Bob"; VNum 1%Z]]) /\
  List.length (rows (mk_table ["revenue"%string; "Client Name"%string; "x"%string]
                 [[VNum 100%Z; VNull; VNull]; [VNull; VStr "Bob"; VNum 1%Z]])) = 1 + 1.
Proof.
  assert (H : concat sheet_one_row client_name_sheet
              = Ok (mk_table ["revenue"%string; "Client Name"%string; "x"%string]
                     [[VNum 100%Z; VNull; VNull]; [VNull; VStr "Bob"; VNum 1%Z]]))
    by reflexivity.
  split; [exact H | exact (proj1 (concat_row_count _ _ _ H))].
Defined.

(* ------------------------------------------------------------------ *)
(** ** [smart_search] never empties a non-empty sheet *)

Lemma project_shape (t : table) (names : list string) (p : table) :
  project t names = Ok p ->
  cols p = names /\ List.length (rows p) = List.length (rows t).
Proof.
  unfold project. destruct (forallb _ names); [|discriminate].
  intro H. injection H as <-. cbn [rows cols]. rewrite length_map. auto.
Qed.

Lemma filter_rows_shape (t : table) (mask : list bool) :
  cols (filter_rows t mask) = cols t /\
  List.length (rows (filter_rows t mask)) <= List.length (rows t).
Proof.
  unfold filter_rows. cbn [rows cols]. split; [reflexivity|].
  rewrite length_map.
  transitivity (List.length (combine (rows t) mask)); [apply filter_length_le|].
  rewrite length_combine. lia.
Qed.

Lemma is_empty_false (t : table) :
  is_empty t = false <-> rows t <> [] /\ cols t <> [].
Proof.
  unfold is_empty. destruct (rows t), (cols t); split; intro H;
    try discriminate; try (destruct H; congruence); split; discriminate.
Qed.

(** The DataFrame [smart_search] leaves in the caller's hands (line 36
    renames its columns in place) keeps its rows. *)
Lemma smart_search_df_rows (keywords : list string) (df df' r : table) :
  smart_search keywords df = Ok (df', r) -> rows df' = rows df.
Proof.
  unfold smart_search. destruct keywords as [|k ks].
  - intro H. injection H as <- _. reflexivity.
  - cbv zeta. intro H.
    destruct (apply_row_matches _ _) as [mask| |]; cbn [bind] in H; try discriminate.
    destruct (filter _ _) as [|m ms];
      [destruct (negb _); injection H as <- _; reflexivity|].
    destruct (is_empty _), (_ ++ _) as [|c cs];
      try (injection H as <- _; reflexivity);
      (destruct (project _ _); cbn [bind] in H; try discriminate;
       injection H as <- _; reflexivity).
Qed.

(** [smart_search] (lines 32-51) on a non-empty sheet returns a
    non-empty DataFrame, with no more rows than the sheet. *)
Theorem smart_search_nonempty (keywords : list string) (df df' r : table) :
  is_empty df = false -> smart_search keywords df = Ok (df', r) ->
  is_empty r = false /\ List.length (rows r) <= List.length (rows df).
Proof.
  intros Hne H. unfold smart_search in H. destruct keywords as [|k ks].
  - injection H as _ <-. split; [exact Hne | lia].
  - cbv zeta in H.
    set (df0 := mk_table (map norm_search (cols df)) (rows df)) in H.
    assert (Hne0 : is_empty df0 = false).
    { apply is_empty_false in Hne as [Hr Hc]. apply is_empty_false.
      cbn [df0 rows cols]. split; [exact Hr|].
      destruct (cols df); [contradiction | discriminate]. }
    destruct (apply_row_matches _ df0) as [mask| |]; cbn [bind] in H; try discriminate.
    pose proof (filter_rows_shape df0 mask) as [Hmc Hml].
    set (mr := filter_rows df0 mask) in *.
    destruct (filter _ (cols df0)) as [|m ms].
    + destruct (is_empty mr) eqn:Em; cbn [negb] in H; injection H as _ <-.
      * split; [exact Hne0 | apply le_n].
      * split; [exact Em | exact Hml].
    + destruct (is_empty mr) eqn:Em.
      * destruct (_ ++ _) as [|c cs].
        { injection H as _ <-. split; [exact Hne0 | apply le_n]. }
        destruct (project df0 (c :: cs)) as [p| |] eqn:Hp; cbn [bind] in H;
          try discriminate.
        injection H as _ <-. apply project_shape in Hp as [Hpc Hpl].
        split; [|rewrite Hpl; apply le_n].
        apply is_empty_false. apply is_empty_false in Hne0 as [Hr _].
        split; [|rewrite Hpc; discriminate].
        intro E. rewrite E in Hpl. destruct (rows df0); [contradiction | discriminate].
      * destruct (_ ++ _) as [|c cs].
        { injection H as _ <-. split; [exact Em | exact Hml]. }
        destruct (project mr (c :: cs)) as [p| |] eqn:Hp; cbn [bind] in H;
          try discriminate.
        injection H as _ <-. apply project_shape in Hp as [Hpc Hpl].
        split; [|rewrite Hpl; exact Hml].
        apply is_empty_false. apply is_empty_false in Em as [Hr _].
        split; [|rewrite Hpc; discriminate].
        intro E. rewrite E in Hpl. destruct (rows mr); [contradiction | discriminate].
Qed.

Lemma smart_search_nonempty_witness :
  is_empty client_name_sheet = false /\
  smart_search ["client_name"%string] client_name_sheet
  = Ok (mk_table ["client_name"%string; "x"%string] [[VStr "Bob"; VNum 1%Z]],
        mk_table ["client_name"%string] [[VStr "Bob"]]) /\
  is_empty (mk_table ["client_name"%string] [[VStr "Bob"]]) = false.
Proof.
  assert (He : is_empty client_name_sheet = false) by reflexivity.
  assert (Hs : smart_search ["client_name"%string] client_name_sheet
               = Ok (mk_table ["client_name"%string; "x"%string] [[VStr "Bob"; VNum 1%Z]],
                     mk_table ["client_name"%string] [[VStr "Bob"]]))
    by (vm_compute; reflexivity).
  split; [exact He|]. split; [exact Hs|].
  exact (proj1 (smart_search_nonempty _ _ _ _ He Hs)).
Defined.

(* ------------------------------------------------------------------ *)
(** ** [read_excel_files]: rows and warnings *)

Lemma set_column_rows (nm : string) (v : cell) (t t' : table) :
  set_column nm v t = Ok t' -> List.length (rows t') = List.length (rows t).
Proof.
  unfold set_column. intro H.
  destruct (occurrences nm (cols t)) as [|[|]];
    [|destruct (index nm (cols t))|destruct (index nm (cols t))];
    try discriminate; injection H as <-; apply length_map.
Qed.

Lemma smart_search_rows_le (keywords : list string) (df df' r : table) :
  smart_search keywords df = Ok (df', r) ->
  List.length (rows r) <= List.length (rows df).
Proof.
  unfold smart_search. destruct keywords as [|k ks].
  - intro H. injection H as _ <-. apply le_n.
  - cbv zeta. intro H.
    set (df0 := mk_table (map norm_search (cols df)) (rows df)) in H.
    destruct (apply_row_matches _ df0) as [mask| |]; cbn [bind] in H; try discriminate.
    pose proof (filter_rows_shape df0 mask) as [_ Hml].
    set (mr := filter_rows df0 mask) in *.
    destruct (filter _ (cols df0)) as [|m ms];
      [destruct (negb _); injection H as _ <-; [exact Hml | apply le_n]|].
    destruct (is_empty mr), (_ ++ _) as [|c cs];
      try (injection H as _ <-; first [exact Hml | apply le_n]);
      [destruct (project df0 (c :: cs)) as [p| |] eqn:Hp
      |destruct (project mr (c :: cs)) as [p| |] eqn:Hp];
      cbn [bind] in H; try discriminate; injection H as _ <-;
      apply project_shape in Hp as [_ ->]; [apply le_n | exact Hml].
Qed.

Lemma concat_rows_helper (t1 t2 u : table) :
  concat t1 t2 = Ok u ->
  List.length (rows u) = List.length (rows t1) + List.length (rows t2).
Proof.
  unfold concat. intro H.
  destruct (list_eq_dec string_dec (cols t1) (cols t2)).
  - injection H as <-. apply length_app.
  - destruct (_ && _); [|discriminate]. injection H as <-. cbn [rows].
    rewrite length_app, !length_map. reflexivity.
Qed.

(** One sheet of the loop: the rows it adds to [combined_df]. *)
Lemma sheet_step_rows (keywords : list string) (fname sheet : string)
      (df c c' : table) :
  (df <- set_column "source_file" (VStr fname) df ;;
   df <- set_column "sheet_name" (VStr sheet) df ;;
   out <- smart_search keywords df ;;
   let '(df, filtered_df) := out in
   if negb (is_empty filtered_df) then concat c filtered_df
   else concat c df) = Ok c' ->
  List.length (rows c) <= List.length (rows c') <=
  List.length (rows c) + List.length (rows df) /\
  (keywords = [] ->
   List.length (rows c') = List.length (rows c) + List.length (rows df)).
Proof.
  intro H.
  destruct (set_column "source_file" _ df) as [d1| |] eqn:E1; cbn [bind] in H;
    try discriminate.
  destruct (set_column "sheet_name" _ d1) as [d2| |] eqn:E2; cbn [bind] in H;
    try discriminate.
  apply set_column_rows in E1, E2.
  destruct (smart_search keywords d2) as [[d3 f]| |] eqn:E3; cbn [bind] in H;
    try discriminate.
  pose proof (smart_search_rows_le _ _ _ _ E3) as Hf.
  pose proof (smart_search_df_rows _ _ _ _ E3) as Hd.
  destruct (negb (is_empty f)); apply concat_rows_helper in H as Hc; rewrite Hc.
  - split; [lia|]. intros ->. injection E3 as <- <-. lia.
  - rewrite Hd. split; [lia|]. intros _. lia.
Qed.

Lemma read_sheets_rows (keywords : list string) (fname : string)
      (sheets : list (string * sheet_parse)) (c : table) :
  match read_sheets keywords fname c sheets with
  | SDone c' | SFail c' _ =>
      List.length (rows c) <= List.length (rows c') <=
      List.length (rows c) + list_sum (map sheet_rows sheets)
  | SUnknown => True
  end.
Proof.
  revert c; induction sheets as [|[sheet p] sheets IH]; intro c; simpl; [lia|].
  destruct p as [df|m]; [|unfold sheet_rows; simpl; lia].
  destruct (_ <- set_column _ _ df ;; _) as [c1| |] eqn:E; [|lia|exact I].
  apply sheet_step_rows in E as [[H1 H2] _].
  specialize (IH c1).
  change (sheet_rows (sheet, Parsed df)) with (List.length (rows df)).
  destruct (read_sheets keywords fname c1 sheets); [lia | lia | exact I].
Qed.

Lemma read_sheets_no_keywords (fname : string)
      (sheets : list (string * sheet_parse)) (c c' : table) :
  read_sheets [] fname c sheets = SDone c' ->
  List.length (rows c') = List.length (rows c) + list_sum (map sheet_rows sheets).
Proof.
  revert c; induction sheets as [|[sheet p] sheets IH]; intros c H;
    cbn [read_sheets map list_sum] in *.
  - injection H as <-. simpl. lia.
  - destruct p as [df|m]; [|discriminate].
    destruct (_ <- set_column _ _ df ;; _) as [c1| |] eqn:E; try discriminate.
    apply sheet_step_rows in E as [_ E]. specialize (E eq_refl).
    rewrite (IH c1 H), E. unfold list_sum. cbn [map fold_right].
    change (sheet_rows (sheet, Parsed df)) with (List.length (rows df)). lia.
Qed.

Lemma read_file_rows (keywords : list string) (c c' : table) (f : upload)
      (ws : list warning) :
  read_file keywords c f = Ok (c', ws) ->
  (List.length (rows c) <= List.length (rows c') <= List.length (rows c) + parsed_rows f) /\
  (List.length ws <= 1 /\ Forall (fun w => wfile w = name f) ws) /\
  (keywords = [] -> ws = [] ->
   List.length (rows c') = List.length (rows c) + parsed_rows f).
Proof.
  unfold read_file, parsed_rows. destruct (data f) as [sheets|m].
  - pose proof (read_sheets_rows keywords (name f) sheets c) as Hb.
    destruct (read_sheets keywords (name f) c sheets) as [c1|c1 e|] eqn:E;
      intro H; try discriminate; injection H as <- <-.
    + split; [exact Hb|]. split; [split; [simpl; lia | constructor]|].
      intros -> _. apply (read_sheets_no_keywords _ _ _ _ E).
    + split; [exact Hb|].
      split; [split; [simpl; lia | constructor; [reflexivity | constructor]]|].
      intros _ Hw; discriminate.
  - intro H; injection H as <- <-.
    split; [lia|]. split; [split; [simpl; lia | constructor; [reflexivity | constructor]]|].
    intros _ Hw; discriminate.
Qed.

(** [read_excel_files] (lines 16-30) never lowers the row count of
    [combined_df] and raises it by at most the rows of the parsed sheets;
    the warnings it shows are, file after file, at most one per file,
    naming that file. *)
Theorem read_excel_files_bounds (keywords : list string) (c c' : table)
        (files : list upload) (ws : list warning) :
  read_excel_files keywords c files = Ok (c', ws) ->
  List.length (rows c) <= List.length (rows c') <=
  List.length (rows c) + list_sum (map parsed_rows files) /\
  exists wss, ws = List.concat wss /\
    Forall2 (fun f w => List.length w <= 1 /\ Forall (fun x => wfile x = name f) w)
            files wss.
Proof.
  revert c c' ws; induction files as [|f files IH]; intros c c' ws H; simpl in H.
  - injection H as <- <-. simpl. split; [lia|]. exists []. split; constructor.
  - destruct (read_file keywords c f) as [[c1 w1]| |] eqn:E1; cbn [bind fst snd] in H;
      try discriminate.
    destruct (read_excel_files keywords c1 files) as [[c2 w2]| |] eqn:E2;
      cbn [bind fst snd] in H; try discriminate.
    injection H as <- <-.
    apply read_file_rows in E1 as [Hb1 [[Hl1 Hw1] _]].
    apply IH in E2 as [Hb2 [wss [-> Hw2]]].
    unfold list_sum in *. cbn [map fold_right].
    split; [lia|]. exists (w1 :: wss). split; [reflexivity|].
    constructor; [split; [exact Hl1 | exact Hw1] | exact Hw2].
Qed.

Lemma read_excel_files_bounds_witness :
  read_excel_files [] empty_table
    [book_one_sheet; mk_upload "bad.xlsx" (Corrupt "File is not a zip file")]
  = Ok (mk_table ["revenue"%string; "source_file"%string; "sheet_name"%string]
                 [[VNum 100%Z; VStr "book.xlsx"; VStr "Sheet1"]],
        [mk_warning "bad.xlsx" (ReadError "File is not a zip file")]) /\
  1 <= 0 + list_sum (map parsed_rows
                       [book_one_sheet;
                        mk_upload "bad.xlsx" (Corrupt "File is not a zip file")]) /\
  exists wss,
    [mk_warning "bad.xlsx" (ReadError "File is not a zip file")] = List.concat wss /\
    Forall2 (fun f w => List.length w <= 1 /\ Forall (fun x => wfile x = name f) w)
            [book_one_sheet; mk_upload "bad.xlsx" (Corrupt "File is not a zip file")]
            wss.
Proof.
  assert (H : read_excel_files [] empty_table
                [book_one_sheet; mk_upload "bad.xlsx" (Corrupt "File is not a zip file")]
              = Ok (mk_table ["revenue"%string; "source_file"%string; "sheet_name"%string]
                             [[VNum 100%Z; VStr "book.xlsx"; VStr "Sheet1"]],
                    [mk_warning "bad.xlsx" (ReadError "File is not a zip file")]))
    by reflexivity.
  destruct (read_excel_files_bounds _ _ _ _ _ H) as [[_ Hle] Hw].
  split; [exact H|]. split; [exact Hle | exact Hw].
Defined.

(** With no keywords and no warning shown, [combined_df] gains exactly as
    many rows as the parsed sheets hold. *)
Theorem read_excel_files_no_keywords_keeps_rows (c c' : table) (files : list upload) :
  read_excel_files [] c files = Ok (c', []) ->
  List.length (rows c') = List.length (rows c) + list_sum (map parsed_rows files).
Proof.
  revert c c'; induction files as [|f files IH]; intros c c' H; simpl in H.
  - injection H as <-. simpl. lia.
  - destruct (read_file [] c f) as [[c1 w1]| |] eqn:E1; cbn [bind fst snd] in H;
      try discriminate.
    destruct (read_excel_files [] c1 files) as [[c2 w2]| |] eqn:E2;
      cbn [bind fst snd] in H; try discriminate.
    injection H as <- Hw. apply app_eq_nil in Hw as [-> ->].
    apply read_file_rows in E1 as [_ [_ E1]].
    rewrite (IH _ _ E2), (E1 eq_refl eq_refl).
    unfold list_sum. cbn [map fold_right]. lia.
Qed.

Lemma read_excel_files_no_keywords_keeps_rows_witness :
  read_excel_files [] empty_table [book_one_sheet; book_one_sheet]
  = Ok (mk_table ["revenue"%string; "source_file"%string; "sheet_name"%string]
                 [[VNum 100%Z; VStr "book.xlsx"; VStr "Sheet1"];
                  [VNum 100%Z; VStr "book.xlsx"; VStr "Sheet1"]], []) /\
  2 = 0 + list_sum (map parsed_rows [book_one_sheet; book_one_sheet]).
Proof.
  assert (H : read_excel_files [] empty_table [book_one_sheet; book_one_sheet]
              = Ok (mk_table ["revenue"%string; "source_file"%string; "sheet_name"%string]
                             [[VNum 100%Z; VStr "book.xlsx"; VStr "Sheet1"];
                              [VNum 100%Z; VStr "book.xlsx"; VStr "Sheet1"]], []))
    by reflexivity.
  split; [exact H|]. exact (read_excel_files_no_keywords_keeps_rows _ _ _ H).
Defined.

(* ------------------------------------------------------------------ *)
(** ** [consolidate] when no file can be opened *)

Lemma read_excel_files_all_corrupt (keywords : list string) (c : table)
      (files : list upload) :
  Forall (fun f => exists m, data f = Corrupt m) files ->
  exists ws, read_excel_files keywords c files = Ok (c, ws) /\
             map wfile ws = map name files.
Proof.
  revert c; induction files as [|f files IH]; intros c H; [exists []; split; reflexivity|].
  inversion H as [|? ? [m Hm] Hfs]; subst.
  destruct (IH c Hfs) as [ws [Hr Hw]].
  exists (mk_warning (name f) (ReadError m) :: ws). split.
  - cbn [read_excel_files]. unfold read_file. rewrite Hm. cbn [bind fst snd].
    rewrite Hr. reflexivity.
  - cbn [map wfile]. rewrite Hw. reflexivity.
Qed.

(** When none of the uploads can be opened, [consolidate] returns an empty
    DataFrame (so [main] reports "No data found") after one warning per
    upload, in upload order. *)
Theorem consolidate_all_corrupt (keywords : list string) (files : list upload) :
  Forall (fun f => exists m, data f = Corrupt m) files ->
  exists ws, consolidate keywords files = Ok (empty_table, ws) /\
             map wfile ws = map name files.
Proof.
  intro H. destruct (read_excel_files_all_corrupt keywords empty_table files H)
    as [ws [Hr Hw]].
  exists ws. split; [|exact Hw].
  unfold consolidate. rewrite Hr. reflexivity.
Qed.

Lemma consolidate_all_corrupt_witness :
  Forall (fun f => exists m, data f = Corrupt m)
         [mk_upload "a.xlsx" (Corrupt "bad zip"); mk_upload "b.xls" (Corrupt "bad header")] /\
  exists ws, consolidate ["revenue"%string]
               [mk_upload "a.xlsx" (Corrupt "bad zip"); mk_upload "b.xls" (Corrupt "bad header")]
             = Ok (empty_table, ws) /\
             map wfile ws = ["a.xlsx"%string; "b.xls"%string].
Proof.
  assert (H : Forall (fun f => exists m, data f = Corrupt m)
                [mk_upload "a.xlsx" (Corrupt "bad zip"); mk_upload "b.xls" (Corrupt "bad header")])
    by (repeat constructor; eexists; reflexivity).
  split; [exact H | exact (consolidate_all_corrupt _ _ H)].
Defined.

(* ------------------------------------------------------------------ *)
(** ** [generate_insights]: the values it reports *)

Lemma num_sum_abs (col : list cell) : (Z.abs (num_sum col) <= abs_sum col)%Z.
Proof.
  unfold num_sum, abs_sum. induction col as [|[z|s|] l IH]; simpl; lia.
Qed.

Lemma wrap64_small (z : Z) : (- 2 ^ 63 <= z < 2 ^ 63)%Z -> wrap64 z = z.
Proof. intro H. unfold wrap64. rewrite Z.mod_small; lia. Qed.

(** Below 2^53 in absolute value, the sum of a numeric column does not
    wrap around in int64 and is exact in float64. *)
Lemma series_sum_value (col : list cell) :
  Forall (fun v => is_null v = true \/ exists z, v = VNum z) col ->
  (abs_sum col <= 2 ^ 53)%Z ->
  series_sum col = Ok (VNum (num_sum col)).
Proof.
  intros H Hb. pose proof (num_sum_abs col) as Ha.
  pose proof (col_dtype_nums col H) as Hd. unfold series_sum.
  destruct (col_dtype col); [| reflexivity | congruence].
  rewrite wrap64_small by lia. reflexivity.
Qed.

Lemma series_mean_value (col : list cell) :
  Forall (fun v => is_null v = true \/ exists z, v = VNum z) col ->
  series_mean col = Ok (num_mean col).
Proof.
  intro H. unfold series_mean. destruct (series_sum_nums col H) as [z ->].
  reflexivity.
Qed.

Lemma has_str_nums (col : list cell) :
  Forall (fun v => is_null v = true \/ exists z, v = VNum z) col ->
  has_str col = false.
Proof.
  intro Hnum. apply not_true_is_false. unfold has_str. rewrite existsb_exists.
  intros [v [Hv Hs]]. rewrite Forall_forall in Hnum.
  destruct (Hnum v Hv) as [Hn|[z' Hz']];
    [destruct v; simpl in *; discriminate | subst; discriminate].
Qed.

Lemma get_column_single_row (t : table) (nm : string) (ccol : list cell) (r : row) :
  get_column t nm = Ok ccol ->
  exists j, ccol = map (fun r => nth j r VNull) (rows t) /\
            get_column (mk_table (cols t) [r]) nm = Ok [nth j r VNull].
Proof.
  unfold get_column. cbn [cols rows].
  destruct (occurrences nm (cols t)) as [|[|]]; try discriminate.
  destruct (index nm (cols t)) as [j|]; intro H; try discriminate.
  injection H as <-. exists j. split; reflexivity.
Qed.



(** Lines 81-88, second instance of the defect of line 79: with a numeric
    [aum] column, no [revenue] column and no [client_name] column, line 88
    reads the unassigned local [top_holder] and [generate_insights] raises
    UnboundLocalError. *)
Theorem generate_insights_aum_without_client_name
  (order_desc : list cell -> list nat)
  (value_counts : list cell -> list (cell * nat))
  (t : table) (col : list cell) :
  in_cols "revenue" (cols t) = false ->
  get_column t "aum" = Ok col ->
  Forall (fun v => is_null v = true \/ exists z, v = VNum z) col ->
  in_cols "client_name" (cols t) = false ->
  generate_insights order_desc value_counts t = Raise NameError.
Proof.
  intros Hr Hcol Hnum Hcn.
  unfold generate_insights, revenue_block. rewrite Hr. cbn [bind].
  unfold aum_block. rewrite (get_column_in _ _ _ Hcol), Hcol. cbn [bind].
  destruct (series_sum_nums col Hnum) as [z ->]. cbn [bind].
  unfold top_row. rewrite (has_str_nums col Hnum), andb_false_r.
  cbn [bind format_money]. unfold top_name. cbn [cols]. rewrite Hcn. reflexivity.
Qed.

Lemma generate_insights_aum_without_client_name_witness :
  generate_insights stable_order_desc counts_first_seen
    (mk_table ["aum"%string] [[VNum 5%Z]]) = Raise NameError.
Proof.
  apply (generate_insights_aum_without_client_name _ _ _ [VNum 5%Z]);
    [reflexivity | reflexivity
    | apply Forall_cons; [right; eexists; reflexivity | apply Forall_nil]
    | reflexivity].
Defined.

(** Lines 90-94: a [performance] column with no non-NaN value gives an
    empty dict, and [max] of it raises ValueError. *)
Theorem generate_insights_empty_performance_raises
  (order_desc : list cell -> list nat)
  (value_counts : list cell -> list (cell * nat))
  (t : table) (col : list cell) :
  in_cols "revenue" (cols t) = false -> in_cols "aum" (cols t) = false ->
  get_column t "performance" = Ok col -> value_counts col = [] ->
  generate_insights order_desc value_counts t = Raise ValueError.
Proof.
  intros Hr Ha Hcol Hvc.
  unfold generate_insights, revenue_block, aum_block. rewrite Hr, Ha. cbn [bind].
  unfold performance_block. rewrite (get_column_in _ _ _ Hcol), Hcol. cbn [bind].
  rewrite Hvc. reflexivity.
Qed.

Lemma generate_insights_empty_performance_raises_witness :
  generate_insights stable_order_desc counts_first_seen
    (mk_table ["performance"%string] [[VNull]; [VNull]]) = Raise ValueError.
Proof.
  apply (generate_insights_empty_performance_raises _ _ _ [VNull; VNull]);
    reflexivity.
Defined.

Lemma first_max_none (l : list (cell * nat)) : first_max l = None -> l = [].
Proof.
  destruct l as [|[k n] l]; [reflexivity|]. simpl.
  destruct (first_max l) as [[]|]; [destruct (_ <? _)|]; discriminate.
Qed.

Lemma first_max_spec (l : list (cell * nat)) (k : cell) (n : nat) :
  first_max l = Some (k, n) ->
  exists pre post, l = pre ++ (k, n) :: post /\
    Forall (fun p => snd p < n) pre /\ Forall (fun p => snd p <= n) post.
Proof.
  revert k n; induction l as [|[k0 n0] l IH]; intros k n H; [discriminate|].
  simpl in H. destruct (first_max l) as [[k' n']|] eqn:E.
  - destruct (IH k' n' eq_refl) as [pre [post [Hl [Hpre Hpost]]]].
    destruct (n0 <? n') eqn:Hlt.
    + injection H as <- <-. apply Nat.ltb_lt in Hlt.
      exists ((k0, n0) :: pre), post. split; [rewrite Hl; reflexivity|].
      split; [constructor; [exact Hlt | exact Hpre] | exact Hpost].
    + injection H as <- <-. apply Nat.ltb_ge in Hlt.
      exists [], l. split; [reflexivity|]. split; [constructor|].
      rewrite Hl. apply Forall_app. split.
      * eapply Forall_impl; [|exact Hpre]. intros p Hp. simpl in *. lia.
      * constructor; [simpl; exact Hlt|].
        eapply Forall_impl; [|exact Hpost]. intros p Hp. cbv beta in *. lia.
  - injection H as <- <-. apply first_max_none in E. subst.
    exists [], []. split; [reflexivity|]. split; constructor.
Qed.

(** Lines 96-100: with a [jurisdiction] column (and none of the other
    reported columns) whose value counts are not empty, the reported
    jurisdiction and count are those of the first value with the largest
    count in the library's order. *)
Theorem generate_insights_jurisdiction_max
  (order_desc : list cell -> list nat)
  (value_counts : list cell -> list (cell * nat))
  (t : table) (col : list cell) :
  in_cols "revenue" (cols t) = false -> in_cols "aum" (cols t) = false ->
  in_cols "performance" (cols t) = false -> in_cols "call_(x)" (cols t) = false ->
  get_column t "jurisdiction" = Ok col -> value_counts col <> [] ->
  exists j n pre post,
    generate_insights order_desc value_counts t
    = Ok ([MostCommonJurisdiction j n], [JurisdictionSummary j n]) /\
    value_counts col = pre ++ (j, n) :: post /\
    Forall (fun p => snd p < n) pre /\ Forall (fun p => snd p <= n) post.
Proof.
  intros Hr Ha Hp Hc Hcol Hne.
  destruct (first_max (value_counts col)) as [[j n]|] eqn:E;
    [|apply first_max_none in E; contradiction].
  destruct (first_max_spec _ _ _ E) as [pre [post Hspec]].
  exists j, n, pre, post. split; [|exact Hspec].
  unfold generate_insights, revenue_block, aum_block, performance_block.
  rewrite Hr, Ha, Hp. cbn [bind].
  unfold jurisdiction_block. rewrite (get_column_in _ _ _ Hcol), Hcol. cbn [bind].
  rewrite E. cbn [bind fst snd app]. unfold calls_block. rewrite Hc. reflexivity.
Qed.

Lemma generate_insights_jurisdiction_max_witness :
  exists j n pre post,
    generate_insights stable_order_desc counts_first_seen
      (mk_table ["jurisdiction"%string]
                [[VStr "DE"]; [VStr "FR"]; [VStr "FR"]; [VStr "DE"]; [VNull]])
    = Ok ([MostCommonJurisdiction j n], [JurisdictionSummary j n]) /\
    counts_first_seen [VStr "DE"; VStr "FR"; VStr "FR"; VStr "DE"; VNull]
    = pre ++ (j, n) :: post /\
    Forall (fun p => snd p < n) pre /\ Forall (fun p => snd p <= n) post.
Proof.
  apply (generate_insights_jurisdiction_max _ _ _
           [VStr "DE"; VStr "FR"; VStr "FR"; VStr "DE"; VNull]);
    try reflexivity.
  vm_compute. discriminate.
Defined.

(** Lines 102-105: with a numeric [call_(x)] column whose absolute values
    add up to at most 2^53, and none of the other reported columns, the
    only insight is the total of the calls. *)
Theorem generate_insights_calls_total
  (order_desc : list cell -> list nat)
  (value_counts : list cell -> list (cell * nat))
  (t : table) (col : list cell) :
  in_cols "revenue" (cols t) = false -> in_cols "aum" (cols t) = false ->
  in_cols "performance" (cols t) = false -> in_cols "jurisdiction" (cols t) = false ->
  get_column t "call_(x)" = Ok col ->
  Forall (fun v => is_null v = true \/ exists z, v = VNum z) col ->
  (abs_sum col <= 2 ^ 53)%Z ->
  generate_insights order_desc value_counts t
  = Ok ([TotalCalls (VNum (num_sum col))], [CallsSummary (VNum (num_sum col))]).
Proof.
  intros Hr Ha Hp Hj Hcol Hnum Hb.
  unfold generate_insights, revenue_block, aum_block, performance_block,
    jurisdiction_block.
  rewrite Hr, Ha, Hp, Hj. cbn [bind].
  unfold calls_block. rewrite (get_column_in _ _ _ Hcol), Hcol. cbn [bind].
  rewrite (series_sum_value col Hnum Hb). reflexivity.
Qed.

Lemma generate_insights_calls_total_witness :
  generate_insights stable_order_desc counts_first_seen
    (mk_table ["call_(x)"%string] [[VNum 3%Z]; [VNull]; [VNum 4%Z]])
  = Ok ([TotalCalls (VNum 7%Z)], [CallsSummary (VNum 7%Z)]).
Proof.
  apply (generate_insights_calls_total _ _ _ [VNum 3%Z; VNull; VNum 4%Z]);
    try reflexivity; try (vm_compute; intro Hc; discriminate Hc).
  repeat (apply Forall_cons; [first [left; reflexivity | right; eexists; reflexivity]|]).
  apply Forall_nil.
Defined.

(** Lines 70-78 on a DataFrame with [revenue] and [client_name] columns
    but no row (which [main] still passes to [generate_insights] after
    reporting "No data found"): [top_revenue] is empty and
    [top_revenue.iloc[0]] raises IndexError. *)
Theorem generate_insights_no_rows_raises
  (order_desc : list cell -> list nat)
  (value_counts : list cell -> list (cell * nat))
  (t : table) (col ccol : list cell) :
  rows t = [] -> get_column t "revenue" = Ok col ->
  get_column t "client_name" = Ok ccol -> order_desc [] = [] ->
  generate_insights order_desc value_counts t = Raise IndexError.
Proof.
  intros Hr Hcol Hcn Hod.
  assert (Hnil : col = []).
  { destruct (get_column_single_row t "revenue" col [] Hcol) as [j [-> _]].
    rewrite Hr. reflexivity. }
  subst col.
  unfold generate_insights, revenue_block.
  rewrite (get_column_in _ _ _ Hcol), Hcol. cbn [bind].
  unfold top_row. cbn [has_num has_str existsb andb]. rewrite Hod.
  cbn [bind series_mean series_sum col_dtype existsb wrap64 num_mean
       format_money List.length filter].
  unfold top_name, iloc0. cbn [cols rows]. rewrite (get_column_in _ _ _ Hcn).
  reflexivity.
Qed.

Lemma generate_insights_no_rows_raises_witness :
  generate_insights stable_order_desc counts_first_seen
    (mk_table ["revenue"%string; "client_name"%string] []) = Raise IndexError.
Proof.
  apply (generate_insights_no_rows_raises _ _ _ [] []); reflexivity.
Defined.
